(** * The MCP ambient server: transport client and tool dispatcher

    A shallow embedding of
    [components/runners/mcp-ambient-server/src/mcp_ambient_server/client.py]
    and [.../server.py].

    Python strings are [string]s (one [ascii] per character), Python [int]s
    are [Z], [None]-able arguments are [option]s.  A coroutine is a
    computation in the monad [M]: it threads the log of the HTTP requests
    issued so far and either returns a value or raises a Python exception.
    Calls to [logger] write to stderr only and are left out. *)

From Stdlib Require Import String Ascii List ZArith Lia Bool DecimalString.
Import ListNotations.

Local Open Scope string_scope.
Local Open Scope Z_scope.

(** ** Python strings *)

Module PyStr.

(** [sub in s]. *)
Fixpoint contains (sub s : string) : bool :=
  String.prefix sub s ||
  match s with
  | EmptyString => false
  | String _ s' => contains sub s'
  end.

(** [s.startswith(p)]. *)
Definition startswith (s p : string) : bool := String.prefix p s.

(** [s.replace(old, new)] for a non-empty [old]: the occurrences of [old]
    are replaced from the left and do not overlap.  [skip] counts the
    characters of a matched occurrence that are still to be passed over. *)
Fixpoint replace_from (skip : nat) (old new s : string) : string :=
  match s with
  | EmptyString => EmptyString
  | String c s' =>
      match skip with
      | S k => replace_from k old new s'
      | O =>
          if String.prefix old s
          then new ++ replace_from (Nat.pred (String.length old)) old new s'
          else String c (replace_from O old new s')
      end
  end.

Definition replace (s old new : string) : string :=
  replace_from O old new s.

Definition is_lower (c : ascii) : bool :=
  let n := N_of_ascii c in (97 <=? n)%N && (n <=? 122)%N.

Definition is_upper (c : ascii) : bool :=
  let n := N_of_ascii c in (65 <=? n)%N && (n <=? 90)%N.

Definition upper_char (c : ascii) : ascii :=
  if is_lower c then ascii_of_N (N_of_ascii c - 32) else c.

Definition lower_char (c : ascii) : ascii :=
  if is_upper c then ascii_of_N (N_of_ascii c + 32) else c.

Fixpoint lower (s : string) : string :=
  match s with
  | EmptyString => EmptyString
  | String c s' => String (lower_char c) (lower s')
  end.

(** [s.capitalize()]: first character upper-cased, the rest lower-cased
    (on the ASCII letters, which is all the resource kinds use). *)
Definition capitalize (s : string) : string :=
  match s with
  | EmptyString => EmptyString
  | String c s' => String (upper_char c) (lower s')
  end.

(** [str(n)] for an [int]. *)
Definition of_int (n : Z) : string := NilZero.string_of_int (Z.to_int n).

(** [s.split(sep)] for a one-character separator. *)
Fixpoint split_from (sep : ascii) (cur s : string) : list string :=
  match s with
  | EmptyString => [cur]
  | String c s' =>
      if Ascii.eqb c sep
      then cur :: split_from sep EmptyString s'
      else split_from sep (cur ++ String c EmptyString) s'
  end.

Definition split (s : string) (sep : ascii) : list string :=
  split_from sep EmptyString s.

End PyStr.

(** ** Python values, as [response.json()] yields them *)

#[warnings="-register-all"]
Inductive value : Type :=
| VNone
| VBool (b : bool)
| VInt (n : Z)
| VFloat (literal : string)
| VStr (s : string)
| VList (items : list value)
| VDict (entries : list (string * value)).

(** The entries of a [dict], in insertion order; keys are distinct. *)
Definition pydict : Type := list (string * value).

Fixpoint dict_lookup (d : pydict) (key : string) : option value :=
  match d with
  | [] => None
  | (k, v) :: d' => if String.eqb k key then Some v else dict_lookup d' key
  end.

(** ** Python exceptions

    The classes that client.py, [json] and [httpx] raise; all of them derive
    from [Exception]. *)

Inductive exc_class : Type :=
| Exception
| ValueError
| JSONDecodeError        (* json.JSONDecodeError(ValueError) *)
| TypeError
| AttributeError
| HTTPError              (* httpx.HTTPError(Exception) *)
| RequestError           (* httpx.RequestError(HTTPError) *)
| TransportError         (* httpx.TransportError(RequestError) *)
| TimeoutException       (* httpx.TimeoutException(TransportError) *)
| ConnectTimeout         (* httpx.ConnectTimeout(TimeoutException) *)
| ReadTimeout            (* httpx.ReadTimeout(TimeoutException) *)
| NetworkError           (* httpx.NetworkError(TransportError) *)
| ConnectError           (* httpx.ConnectError(NetworkError) *)
| ReadError              (* httpx.ReadError(NetworkError) *)
| ProtocolError          (* httpx.ProtocolError(TransportError) *)
| InvalidURL.            (* httpx.InvalidURL(Exception) *)

Definition exc_class_eqb (a b : exc_class) : bool :=
  match a, b with
  | Exception, Exception | ValueError, ValueError
  | JSONDecodeError, JSONDecodeError | TypeError, TypeError
  | AttributeError, AttributeError | HTTPError, HTTPError
  | RequestError, RequestError | TransportError, TransportError
  | TimeoutException, TimeoutException | ConnectTimeout, ConnectTimeout
  | ReadTimeout, ReadTimeout | NetworkError, NetworkError
  | ConnectError, ConnectError | ReadError, ReadError
  | ProtocolError, ProtocolError | InvalidURL, InvalidURL => true
  | _, _ => false
  end.

(** The proper base classes of a class, nearest first (below [BaseException]). *)
Definition bases (c : exc_class) : list exc_class :=
  match c with
  | Exception => []
  | ValueError | TypeError | AttributeError | HTTPError | InvalidURL =>
      [Exception]
  | JSONDecodeError => [ValueError; Exception]
  | RequestError => [HTTPError; Exception]
  | TransportError => [RequestError; HTTPError; Exception]
  | TimeoutException | NetworkError | ProtocolError =>
      [TransportError; RequestError; HTTPError; Exception]
  | ConnectTimeout | ReadTimeout =>
      [TimeoutException; TransportError; RequestError; HTTPError; Exception]
  | ConnectError | ReadError =>
      [NetworkError; TransportError; RequestError; HTTPError; Exception]
  end.

Definition issubclass (c d : exc_class) : bool :=
  existsb (exc_class_eqb d) (c :: bases c).

(** A raised exception: its class and [str(e)]. *)
Record exn : Type := mk_exn { exc_type : exc_class; exc_str : string }.

Definition isinstance (e : exn) (c : exc_class) : bool :=
  issubclass (exc_type e) c.

(** ** Coroutines: request log and exceptions *)

(** What [httpx] is asked to send: the base address in force, the
    [Authorization] header of the client and the relative URL. *)
Record request : Type := mk_request {
  rq_base_url : string;
  rq_authorization : string;
  rq_url : string
}.

Inductive result (A : Type) : Type :=
| Return (a : A)
| Raise (e : exn).

Arguments Return {A} a.
Arguments Raise {A} e.

Definition M (A : Type) : Type := list request -> result A * list request.

Definition ret {A} (a : A) : M A := fun log => (Return a, log).

Definition raise {A} (e : exn) : M A := fun log => (Raise e, log).

Definition bind {A B} (c : M A) (k : A -> M B) : M B :=
  fun log =>
    match c log with
    | (Return a, log') => k a log'
    | (Raise e, log') => (Raise e, log')
    end.

Definition lift {A} (r : result A) : M A := fun log => (r, log).

Notation "x <- c ;; k" := (bind c (fun x => k))
  (at level 61, c at next level, right associativity).

(** [except cls as e: h e] clauses, tried in order. *)
Definition handlers (A : Type) : Type := list (exc_class * (exn -> M A)).

Fixpoint find_handler {A} (e : exn) (hs : handlers A) : option (exn -> M A) :=
  match hs with
  | [] => None
  | (cls, h) :: hs' => if isinstance e cls then Some h else find_handler e hs'
  end.

Definition try_except {A} (body : M A) (hs : handlers A) : M A :=
  fun log =>
    match body log with
    | (Return a, log') => (Return a, log')
    | (Raise e, log') =>
        match find_handler e hs with
        | Some h => h e log'
        | None => (Raise e, log')
        end
    end.

(** The outcome of a computation started on an empty log. *)
Definition run {A} (c : M A) : result A * list request := c [].

(** ** httpx *)

Record response : Type := mk_response {
  status_code : Z;
  json : result value          (* what [response.json()] does *)
}.

Inductive outcome : Type :=
| Responds (r : response)
| Fails (e : exn).

Record AsyncClient : Type := mk_AsyncClient {
  ac_base_url : string;
  ac_authorization : string;
  ac_timeout : Z
}.

Definition type_name (v : value) : string :=
  match v with
  | VNone => "NoneType"
  | VBool _ => "bool"
  | VInt _ => "int"
  | VFloat _ => "float"
  | VStr _ => "str"
  | VList _ => "list"
  | VDict _ => "dict"
  end.

(** [v.get(key, default)]: only a [dict] has the method. *)
Definition value_get (v : value) (key : string) (default : value) : M value :=
  match v with
  | VDict d =>
      match dict_lookup d key with
      | Some x => ret x
      | None => ret default
      end
  | _ => raise (mk_exn AttributeError
                  ("'" ++ type_name v ++ "' object has no attribute 'get'"))
  end.

(** [len(v)]. *)
Definition len (v : value) : M Z :=
  match v with
  | VList l => ret (Z.of_nat (List.length l))
  | VDict d => ret (Z.of_nat (List.length d))
  | VStr s => ret (Z.of_nat (String.length s))
  | _ => raise (mk_exn TypeError
                  ("object of type '" ++ type_name v ++ "' has no len()"))
  end.

(** [x or y] on an optional string: [None] and [""] are falsy. *)
Definition str_or (x : option string) (y : string) : string :=
  match x with
  | Some s => if String.eqb s "" then y else s
  | None => y
  end.

(** [os.getenv(name, default)]. *)
Definition getenv (environ : string -> option string)
    (name default : string) : string :=
  match environ name with
  | Some v => v
  | None => default
  end.

(** ** The operations

    Every method of [APIClient] has a tool of the same name in server.py,
    registered with [@mcp.tool()]; an [operation] is a name with its
    arguments. *)

Inductive operation : Type :=
| ListProjects
| GetProject (project_name : string)
| CheckProjectAccess (project_name : string)
| ListSessions (project_name : string)
| GetSession (project_name session_name : string)
| GetSessionK8sResources (project_name session_name : string)
| ListSessionWorkspace (project_name session_name : string)
| GetWorkspaceFile (project_name session_name path : string)
| ListOotbWorkflows
| GetWorkflowMetadata (project_name session_name : string)
| GetClusterInfo
| GetHealth.

(** ** client.py *)

Module Client.

Record APIClient : Type := mk_APIClient {
  base_url : string;
  token : string;
  client : AsyncClient
}.

Definition default_backend_api_url : string :=
  "http://vteam-backend.ambient-code.svc.cluster.local:8080/api".

Section Construction.

(** [httpx] parses the base address it is constructed with:
    [invalid_url u] is the message of the [httpx.InvalidURL] it raises for
    an address it cannot parse, [None] for an address it accepts. *)
Variable invalid_url : string -> option string.

(** [httpx.AsyncClient(base_url=..., headers={"Authorization": ...},
    timeout=...)]. *)
Definition new_AsyncClient (base_url authorization : string) (timeout : Z)
    : M AsyncClient :=
  match invalid_url base_url with
  | Some message => raise (mk_exn InvalidURL message)
  | None => ret (mk_AsyncClient base_url authorization timeout)
  end.

(** [APIClient.__init__(base_url, token)], with the environment it reads. *)
Definition __init__ (environ : string -> option string)
    (base_url token : option string) : M APIClient :=
  let self_base_url :=
    str_or base_url (getenv environ "BACKEND_API_URL" default_backend_api_url) in
  let self_token := str_or token (getenv environ "BOT_TOKEN" "") in
  if String.eqb self_token ""
  then raise (mk_exn ValueError "BOT_TOKEN environment variable must be set")
  else
    client <- new_AsyncClient self_base_url ("Bearer " ++ self_token) 30 ;;
    ret (mk_APIClient self_base_url self_token client).

End Construction.

Section Methods.

(** The network: what happens to each request that is sent. *)
Variable net : request -> outcome.

(** [str(v)] for a value that is not a [str]. *)
Variable repr : value -> string.

(** [f"{v}"]. *)
Definition format (v : value) : string :=
  match v with
  | VStr s => s
  | _ => repr v
  end.

(** [await client.get(url)] and [await client.get(url, base_url=b)].
    Without the keyword the request is logged, then answered by the
    network.  [httpx.AsyncClient.get] has no [base_url] parameter: a call
    that passes one raises [TypeError] when the arguments are bound, and
    no request comes to exist. *)
Definition get (c : AsyncClient) (url : string)
    (base_url : option string) : M response :=
  match base_url with
  | Some _ =>
      raise (mk_exn TypeError
               "AsyncClient.get() got an unexpected keyword argument 'base_url'")
  | None =>
      fun log =>
        let q := mk_request (ac_base_url c) (ac_authorization c) url in
        match net q with
        | Responds r => (Return r, (log ++ [q])%list)
        | Fails e => (Raise e, (log ++ [q])%list)
        end
  end.

Definition _handle_response (response : response)
    (resource_type : string) : M value :=
  if (status_code response >=? 200) && (status_code response <? 300)
  then lift (json response)
  else if status_code response =? 401
  then raise (mk_exn Exception
                "Authentication failed. BOT_TOKEN may be invalid or expired.")
  else if status_code response =? 403
  then raise (mk_exn Exception
                ("Access denied. User does not have permission for this "
                   ++ resource_type ++ "."))
  else if status_code response =? 404
  then raise (mk_exn Exception
                (PyStr.capitalize resource_type ++ " not found"))
  else if status_code response >=? 500
  then
    error_msg <-
      try_except
        (error_data <- lift (json response) ;;
         value_get error_data "error" (VStr "Unknown backend error"))
        [(Exception, fun _ => ret (VStr "Unknown backend error"))] ;;
    raise (mk_exn Exception ("Backend API error: " ++ format error_msg))
  else raise (mk_exn Exception
                ("Request failed with status "
                   ++ PyStr.of_int (status_code response))).

(** The two [except] clauses every method ends with. *)
Definition transport_handlers (A : Type) : handlers A :=
  [(ConnectError,
    fun _ => raise (mk_exn Exception
               "Cannot reach backend API. Check cluster connectivity."));
   (TimeoutException,
    fun _ => raise (mk_exn Exception
               "Request timed out after 30s. Backend may be overloaded."))].

Definition list_projects (self : APIClient) : M value :=
  try_except
    (response <- get (client self) "/projects" None ;;
     data <- _handle_response response "projects" ;;
     value_get data "items" (VList []))
    (transport_handlers value).

Definition get_project (self : APIClient) (project_name : string) : M value :=
  try_except
    (response <- get (client self) ("/projects/" ++ project_name) None ;;
     _handle_response response "project")
    (transport_handlers value).

Definition check_project_access (self : APIClient)
    (project_name : string) : M value :=
  try_except
    (response <- get (client self)
                   ("/projects/" ++ project_name ++ "/access") None ;;
     _handle_response response "access information")
    (transport_handlers value).

Definition list_sessions (self : APIClient) (project_name : string) : M value :=
  try_except
    (response <- get (client self)
                   ("/projects/" ++ project_name ++ "/agentic-sessions") None ;;
     data <- _handle_response response "sessions" ;;
     value_get data "items" (VList []))
    (transport_handlers value).

Definition get_session (self : APIClient)
    (project_name session_name : string) : M value :=
  try_except
    (response <- get (client self)
                   ("/projects/" ++ project_name ++ "/agentic-sessions/"
                      ++ session_name) None ;;
     _handle_response response "session")
    (transport_handlers value).

Definition get_session_k8s_resources (self : APIClient)
    (project_name session_name : string) : M value :=
  try_except
    (response <- get (client self)
                   ("/projects/" ++ project_name ++ "/agentic-sessions/"
                      ++ session_name ++ "/k8s-resources") None ;;
     _handle_response response "k8s resources")
    (transport_handlers value).

Definition list_session_workspace (self : APIClient)
    (project_name session_name : string) : M value :=
  try_except
    (response <- get (client self)
                   ("/projects/" ++ project_name ++ "/agentic-sessions/"
                      ++ session_name ++ "/workspace") None ;;
     data <- _handle_response response "workspace" ;;
     value_get data "files" (VList []))
    (transport_handlers value).

Definition get_workspace_file (self : APIClient)
    (project_name session_name path : string) : M value :=
  if PyStr.contains ".." path
  then raise (mk_exn ValueError "Path cannot contain '..' components")
  else
    try_except
      (response <- get (client self)
                     ("/projects/" ++ project_name ++ "/agentic-sessions/"
                        ++ session_name ++ "/workspace/" ++ path) None ;;
       _handle_response response "file")
      (transport_handlers value).

Definition list_ootb_workflows (self : APIClient) : M value :=
  try_except
    (response <- get (client self) "/workflows/ootb" None ;;
     data <- _handle_response response "workflows" ;;
     value_get data "workflows" (VList []))
    (transport_handlers value).

Definition get_workflow_metadata (self : APIClient)
    (project_name session_name : string) : M value :=
  try_except
    (response <- get (client self)
                   ("/projects/" ++ project_name ++ "/agentic-sessions/"
                      ++ session_name ++ "/workflow/metadata") None ;;
     _handle_response response "workflow metadata")
    (transport_handlers value).

Definition get_cluster_info (self : APIClient) : M value :=
  try_except
    (response <- get (client self) "/cluster-info" None ;;
     _handle_response response "cluster info")
    (transport_handlers value).

Definition get_health (self : APIClient) : M value :=
  try_except
    (response <- get (client self) "/health"
                   (Some (PyStr.replace (base_url self) "/api" "")) ;;
     _handle_response response "health status")
    (transport_handlers value).

(** The method an operation names, applied to its arguments. *)
Definition call (self : APIClient) (op : operation) : M value :=
  match op with
  | ListProjects => list_projects self
  | GetProject p => get_project self p
  | CheckProjectAccess p => check_project_access self p
  | ListSessions p => list_sessions self p
  | GetSession p s => get_session self p s
  | GetSessionK8sResources p s => get_session_k8s_resources self p s
  | ListSessionWorkspace p s => list_session_workspace self p s
  | GetWorkspaceFile p s f => get_workspace_file self p s f
  | ListOotbWorkflows => list_ootb_workflows self
  | GetWorkflowMetadata p s => get_workflow_metadata self p s
  | GetClusterInfo => get_cluster_info self
  | GetHealth => get_health self
  end.

End Methods.

(** The [resource_type] each method hands to [_handle_response]. *)
Definition resource_type (op : operation) : string :=
  match op with
  | ListProjects => "projects"
  | GetProject _ => "project"
  | CheckProjectAccess _ => "access information"
  | ListSessions _ => "sessions"
  | GetSession _ _ => "session"
  | GetSessionK8sResources _ _ => "k8s resources"
  | ListSessionWorkspace _ _ => "workspace"
  | GetWorkspaceFile _ _ _ => "file"
  | ListOotbWorkflows => "workflows"
  | GetWorkflowMetadata _ _ => "workflow metadata"
  | GetClusterInfo => "cluster info"
  | GetHealth => "health status"
  end.

(** The collection field a listing method unwraps; [None] for the
    methods that return the body as it is. *)
Definition collection_field (op : operation) : option string :=
  match op with
  | ListProjects | ListSessions _ => Some "items"
  | ListSessionWorkspace _ _ => Some "files"
  | ListOotbWorkflows => Some "workflows"
  | _ => None
  end.

(** What a method does with the value [_handle_response] returned. *)
Definition finish (op : operation) (data : value) : M value :=
  match collection_field op with
  | Some field => value_get data field (VList [])
  | None => ret data
  end.

End Client.

(** ** server.py *)

Module Server.

Import Client.

Section Tools.

Variable net : request -> outcome.
Variable repr : value -> string.

(** [json.dumps(data, indent=2)]. *)
Variable json_dumps : value -> string.

(** [mcp.run(transport="stdio")], given the module's [api_client]. *)
Variable mcp_run : option APIClient -> M unit.

(** The addresses [httpx] cannot parse, as in [Client.__init__]. *)
Variable invalid_url : string -> option string.

Definition format_json (data : value) : string := json_dumps data.

(** [api_client.name(...)]: the module-level [api_client] is [None]
    until [main] has assigned it. *)
Definition method {A} (api_client : option APIClient) (name : string)
    (call : APIClient -> M A) : M A :=
  match api_client with
  | Some c => call c
  | None => raise (mk_exn AttributeError
                     ("'NoneType' object has no attribute '" ++ name ++ "'"))
  end.

(** Each tool is its [try] block under its [except] clauses. *)

Definition list_projects_try (api_client : option APIClient) : M string :=
  projects <- method api_client "list_projects" (Client.list_projects net repr) ;;
  count <- len projects ;;
  ret (format_json (VDict [("projects", projects); ("count", VInt count)])).

Definition list_projects (api_client : option APIClient) : M string :=
  try_except (list_projects_try api_client)
    [(Exception, fun e => ret ("Error listing projects: " ++ exc_str e))].

Definition get_project_try (api_client : option APIClient)
    (project_name : string) : M string :=
  project <- method api_client "get_project"
               (fun c => Client.get_project net repr c project_name) ;;
  ret (format_json project).

Definition get_project (api_client : option APIClient)
    (project_name : string) : M string :=
  try_except (get_project_try api_client project_name)
    [(Exception, fun e => ret ("Error getting project: " ++ exc_str e))].

Definition check_project_access_try (api_client : option APIClient)
    (project_name : string) : M string :=
  access_info <- method api_client "check_project_access"
                   (fun c => Client.check_project_access net repr c project_name) ;;
  ret (format_json access_info).

Definition check_project_access (api_client : option APIClient)
    (project_name : string) : M string :=
  try_except (check_project_access_try api_client project_name)
    [(Exception,
      fun e => ret ("Error checking project access: " ++ exc_str e))].

Definition list_sessions_try (api_client : option APIClient)
    (project_name : string) : M string :=
  sessions <- method api_client "list_sessions"
                (fun c => Client.list_sessions net repr c project_name) ;;
  count <- len sessions ;;
  ret (format_json (VDict [("sessions", sessions); ("count", VInt count)])).

Definition list_sessions (api_client : option APIClient)
    (project_name : string) : M string :=
  try_except (list_sessions_try api_client project_name)
    [(Exception, fun e => ret ("Error listing sessions: " ++ exc_str e))].

Definition get_session_try (api_client : option APIClient)
    (project_name session_name : string) : M string :=
  session <- method api_client "get_session"
               (fun c => Client.get_session net repr c project_name session_name) ;;
  ret (format_json session).

Definition get_session (api_client : option APIClient)
    (project_name session_name : string) : M string :=
  try_except (get_session_try api_client project_name session_name)
    [(Exception, fun e => ret ("Error getting session: " ++ exc_str e))].

Definition get_session_k8s_resources_try (api_client : option APIClient)
    (project_name session_name : string) : M string :=
  resources <- method api_client "get_session_k8s_resources"
                 (fun c => Client.get_session_k8s_resources net repr c
                             project_name session_name) ;;
  ret (format_json resources).

Definition get_session_k8s_resources (api_client : option APIClient)
    (project_name session_name : string) : M string :=
  try_except (get_session_k8s_resources_try api_client project_name session_name)
    [(Exception,
      fun e => ret ("Error getting Kubernetes resources: " ++ exc_str e))].

Definition list_session_workspace_try (api_client : option APIClient)
    (project_name session_name : string) : M string :=
  files <- method api_client "list_session_workspace"
             (fun c => Client.list_session_workspace net repr c
                         project_name session_name) ;;
  count <- len files ;;
  ret (format_json (VDict [("files", files); ("count", VInt count)])).

Definition list_session_workspace (api_client : option APIClient)
    (project_name session_name : string) : M string :=
  try_except (list_session_workspace_try api_client project_name session_name)
    [(Exception, fun e => ret ("Error listing workspace: " ++ exc_str e))].

Definition get_workspace_file_try (api_client : option APIClient)
    (project_name session_name path : string) : M string :=
  file_data <- method api_client "get_workspace_file"
                 (fun c => Client.get_workspace_file net repr c
                             project_name session_name path) ;;
  ret (format_json file_data).

Definition get_workspace_file (api_client : option APIClient)
    (project_name session_name path : string) : M string :=
  try_except (get_workspace_file_try api_client project_name session_name path)
    [(ValueError, fun e => ret ("Invalid path: " ++ exc_str e));
     (Exception,
      fun e => ret ("Error getting workspace file: " ++ exc_str e))].

Definition list_ootb_workflows_try (api_client : option APIClient) : M string :=
  workflows <- method api_client "list_ootb_workflows"
                 (Client.list_ootb_workflows net repr) ;;
  count <- len workflows ;;
  ret (format_json (VDict [("workflows", workflows); ("count", VInt count)])).

Definition list_ootb_workflows (api_client : option APIClient) : M string :=
  try_except (list_ootb_workflows_try api_client)
    [(Exception, fun e => ret ("Error listing workflows: " ++ exc_str e))].

Definition get_workflow_metadata_try (api_client : option APIClient)
    (project_name session_name : string) : M string :=
  metadata <- method api_client "get_workflow_metadata"
                (fun c => Client.get_workflow_metadata net repr c
                            project_name session_name) ;;
  ret (format_json metadata).

Definition get_workflow_metadata (api_client : option APIClient)
    (project_name session_name : string) : M string :=
  try_except (get_workflow_metadata_try api_client project_name session_name)
    [(Exception,
      fun e => ret ("Error getting workflow metadata: " ++ exc_str e))].

Definition get_cluster_info_try (api_client : option APIClient) : M string :=
  cluster_info <- method api_client "get_cluster_info"
                    (Client.get_cluster_info net repr) ;;
  ret (format_json cluster_info).

Definition get_cluster_info (api_client : option APIClient) : M string :=
  try_except (get_cluster_info_try api_client)
    [(Exception, fun e => ret ("Error getting cluster info: " ++ exc_str e))].

Definition get_health_try (api_client : option APIClient) : M string :=
  health <- method api_client "get_health" (Client.get_health net repr) ;;
  ret (format_json health).

Definition get_health (api_client : option APIClient) : M string :=
  try_except (get_health_try api_client)
    [(Exception, fun e => ret ("Error getting health status: " ++ exc_str e))].

(** What FastMCP does with an invocation: it calls the tool of that name. *)
Definition call_tool (api_client : option APIClient) (i : operation) : M string :=
  match i with
  | ListProjects => list_projects api_client
  | GetProject p => get_project api_client p
  | CheckProjectAccess p => check_project_access api_client p
  | ListSessions p => list_sessions api_client p
  | GetSession p s => get_session api_client p s
  | GetSessionK8sResources p s => get_session_k8s_resources api_client p s
  | ListSessionWorkspace p s => list_session_workspace api_client p s
  | GetWorkspaceFile p s f => get_workspace_file api_client p s f
  | ListOotbWorkflows => list_ootb_workflows api_client
  | GetWorkflowMetadata p s => get_workflow_metadata api_client p s
  | GetClusterInfo => get_cluster_info api_client
  | GetHealth => get_health api_client
  end.

(** The [try] block of the tool an invocation names. *)
Definition try_block (api_client : option APIClient) (i : operation) : M string :=
  match i with
  | ListProjects => list_projects_try api_client
  | GetProject p => get_project_try api_client p
  | CheckProjectAccess p => check_project_access_try api_client p
  | ListSessions p => list_sessions_try api_client p
  | GetSession p s => get_session_try api_client p s
  | GetSessionK8sResources p s => get_session_k8s_resources_try api_client p s
  | ListSessionWorkspace p s => list_session_workspace_try api_client p s
  | GetWorkspaceFile p s f => get_workspace_file_try api_client p s f
  | ListOotbWorkflows => list_ootb_workflows_try api_client
  | GetWorkflowMetadata p s => get_workflow_metadata_try api_client p s
  | GetClusterInfo => get_cluster_info_try api_client
  | GetHealth => get_health_try api_client
  end.

(** [main()]: the value is the exit status of the process, 1 where a
    handler calls [sys.exit(1)] and 0 where [main] returns. *)
Definition main (environ : string -> option string) : M Z :=
  try_except
    (api_client <- Client.__init__ invalid_url environ None None ;;
     _ <- mcp_run (Some api_client) ;;
     ret 0)
    [(ValueError, fun _ => ret 1);
     (Exception, fun _ => ret 1)].

End Tools.

(** The text each tool puts in front of the message of a caught error. *)
Definition error_label (i : operation) : string :=
  match i with
  | ListProjects => "Error listing projects: "
  | GetProject _ => "Error getting project: "
  | CheckProjectAccess _ => "Error checking project access: "
  | ListSessions _ => "Error listing sessions: "
  | GetSession _ _ => "Error getting session: "
  | GetSessionK8sResources _ _ => "Error getting Kubernetes resources: "
  | ListSessionWorkspace _ _ => "Error listing workspace: "
  | GetWorkspaceFile _ _ _ => "Error getting workspace file: "
  | ListOotbWorkflows => "Error listing workflows: "
  | GetWorkflowMetadata _ _ => "Error getting workflow metadata: "
  | GetClusterInfo => "Error getting cluster info: "
  | GetHealth => "Error getting health status: "
  end.

End Server.

(** ** The error taxonomy

    client.py declares no exception classes: apart from the two
    [ValueError]s it raises plain [Exception]s and tells the categories
    apart by message.  [as_exception] gives, for each category of the
    taxonomy, the exception client.py raises for it. *)

Inductive category : Type :=
| ConfigurationError
| ValidationError
| AuthenticationError
| AccessDeniedError (resource_kind : string)
| NotFoundError (resource_kind : string)
| BackendError (message : string)
| RequestFailed (status : Z)
| ConnectivityError
| TimeoutError.

Definition as_exception (c : category) : exn :=
  match c with
  | ConfigurationError =>
      mk_exn ValueError "BOT_TOKEN environment variable must be set"
  | ValidationError =>
      mk_exn ValueError "Path cannot contain '..' components"
  | AuthenticationError =>
      mk_exn Exception "Authentication failed. BOT_TOKEN may be invalid or expired."
  | AccessDeniedError kind =>
      mk_exn Exception
        ("Access denied. User does not have permission for this " ++ kind ++ ".")
  | NotFoundError kind =>
      mk_exn Exception (PyStr.capitalize kind ++ " not found")
  | BackendError message =>
      mk_exn Exception ("Backend API error: " ++ message)
  | RequestFailed status =>
      mk_exn Exception ("Request failed with status " ++ PyStr.of_int status)
  | ConnectivityError =>
      mk_exn Exception "Cannot reach backend API. Check cluster connectivity."
  | TimeoutError =>
      mk_exn Exception "Request timed out after 30s. Backend may be overloaded."
  end.

(** The [error] field of a response's JSON body, when the body is an
    object that has one. *)
Definition error_field (r : response) : option value :=
  match json r with
  | Return (VDict d) => dict_lookup d "error"
  | _ => None
  end.

(** A path names a parent directory when one of its segments is [..]. *)
Definition has_parent_segment (path : string) : bool :=
  existsb (String.eqb "..") (PyStr.split path "/").

(** Fixtures for the closed examples. *)

Definition test_environ (name : string) : option string :=
  if String.eqb name "BOT_TOKEN" then Some "test-token-12345"
  else if String.eqb name "BACKEND_API_URL" then Some "http://test-backend:8080/api"
  else None.

Definition test_client : Client.APIClient :=
  Client.mk_APIClient "http://test-backend:8080/api" "test-token-12345"
    (mk_AsyncClient "http://test-backend:8080/api" "Bearer test-token-12345" 30).

(** A client whose backend lives on a host named [api.example.com]. *)
Definition api_host_client : Client.APIClient :=
  Client.mk_APIClient "http://api.example.com/api" "test-token-12345"
    (mk_AsyncClient "http://api.example.com/api" "Bearer test-token-12345" 30).

Definition answers (r : response) : request -> outcome := fun _ => Responds r.

Definition no_repr : value -> string := fun _ => "<value>".

Definition no_dumps : value -> string := fun _ => "<json>".

(** ** The request of each method

    The relative URL each method of client.py builds, the request it
    describes to [httpx] (for [get_health] with the base address it passes
    as the [base_url] keyword), and whether a call reaches the transport:
    [get_workspace_file] does when its path passes the gate, [get_health]
    never does, its call of [client.get] being refused. *)

Definition url (op : operation) : string :=
  match op with
  | ListProjects => "/projects"
  | GetProject p => "/projects/" ++ p
  | CheckProjectAccess p => "/projects/" ++ p ++ "/access"
  | ListSessions p => "/projects/" ++ p ++ "/agentic-sessions"
  | GetSession p s => "/projects/" ++ p ++ "/agentic-sessions/" ++ s
  | GetSessionK8sResources p s =>
      "/projects/" ++ p ++ "/agentic-sessions/" ++ s ++ "/k8s-resources"
  | ListSessionWorkspace p s =>
      "/projects/" ++ p ++ "/agentic-sessions/" ++ s ++ "/workspace"
  | GetWorkspaceFile p s path =>
      "/projects/" ++ p ++ "/agentic-sessions/" ++ s ++ "/workspace/" ++ path
  | ListOotbWorkflows => "/workflows/ootb"
  | GetWorkflowMetadata p s =>
      "/projects/" ++ p ++ "/agentic-sessions/" ++ s ++ "/workflow/metadata"
  | GetClusterInfo => "/cluster-info"
  | GetHealth => "/health"
  end.

Definition request_of (self : Client.APIClient) (op : operation) : request :=
  mk_request
    (match op with
     | GetHealth => PyStr.replace (Client.base_url self) "/api" ""
     | _ => ac_base_url (Client.client self)
     end)
    (ac_authorization (Client.client self))
    (url op).

Definition reaches_transport (op : operation) : bool :=
  match op with
  | GetWorkspaceFile _ _ path => negb (PyStr.contains ".." path)
  | GetHealth => false
  | _ => true
  end.

(** The key under which a listing tool of server.py reports its items. *)
Definition listing_key (op : operation) : option string :=
  match op with
  | ListProjects => Some "projects"
  | ListSessions _ => Some "sessions"
  | ListSessionWorkspace _ _ => Some "files"
  | ListOotbWorkflows => Some "workflows"
  | _ => None
  end.

(** A network that fails every request with [e]. *)
Definition fails (e : exn) : request -> outcome := fun _ => Fails e.

(** An [httpx] that accepts every base address, and one that cannot parse
    the port of [http://host:abc/api]. *)
Definition accepts_every_url : string -> option string := fun _ => None.



(** * Properties *)

(** ** Strings and exception classes *)

Lemma prefix_app (s t : string) : String.prefix s (s ++ t) = true.
Proof.
  induction s as [|c s IH]; simpl.
  - destruct t; reflexivity.
  - destruct (ascii_dec c c) as [_|ne]; [exact IH | now elim ne].
Qed.

Lemma contains_prefix (sub s : string) :
  String.prefix sub s = true -> PyStr.contains sub s = true.
Proof.
  intros H. destruct s; cbn [PyStr.contains]; rewrite H; reflexivity.
Qed.

Lemma contains_occurrence (sub before after : string) :
  PyStr.contains sub (before ++ sub ++ after) = true.
Proof.
  induction before as [|c before IH].
  - cbn [append]. apply contains_prefix, prefix_app.
  - cbn [append PyStr.contains]. rewrite IH. apply orb_true_r.
Qed.

Lemma isinstance_Exception (e : exn) : isinstance e Exception = true.
Proof.
  destruct e as [cls msg]. destruct cls; reflexivity.
Qed.

(** ** The path gate *)

Section PathGate.

Variable net : request -> outcome.
Variable repr : value -> string.

Lemma gate_rejects (self : Client.APIClient) (p s path : string)
    (log : list request) :
  PyStr.contains ".." path = true ->
  Client.get_workspace_file net repr self p s path log
  = (Raise (as_exception ValidationError), log).
Proof.
  intros H. unfold Client.get_workspace_file. rewrite H. reflexivity.
Qed.

(** C1: whenever [".."] occurs anywhere in the path, the client's
    [get_workspace_file] raises the path-gate [ValueError] at once: the
    request log is left as it was, so no HTTP request is dispatched,
    whatever the project name, the session name and the network. *)
Theorem get_workspace_file_rejects_dotdot
    (self : Client.APIClient) (project_name session_name path : string)
    (log : list request) :
  (exists before after, path = before ++ ".." ++ after) ->
  Client.get_workspace_file net repr self project_name session_name path log
  = (Raise (as_exception ValidationError), log).
Proof.
  intros [before [after ->]].
  apply gate_rejects, contains_occurrence.
Qed.

(** C9: the gate looks for the substring, not for a path segment:
    [notes..txt] has no [..] segment, names no parent directory, and is
    rejected all the same without a request being sent. *)
Theorem gate_rejects_by_substring :
  exists path,
    has_parent_segment path = false /\
    forall self project_name session_name log,
      Client.get_workspace_file net repr self project_name session_name path log
      = (Raise (as_exception ValidationError), log).
Proof.
  exists "notes..txt". split; [reflexivity|].
  intros. apply gate_rejects. reflexivity.
Qed.

End PathGate.

Lemma get_workspace_file_rejects_dotdot_witness :
  Client.get_workspace_file (answers (mk_response 200 (Return VNone))) no_repr
    test_client "test-project" "test-session" "../etc/passwd" []
  = (Raise (mk_exn ValueError "Path cannot contain '..' components"), []).
Proof.
  apply (get_workspace_file_rejects_dotdot
           (answers (mk_response 200 (Return VNone))) no_repr test_client
           "test-project" "test-session" "../etc/passwd" []).
  exists "", "/etc/passwd". reflexivity.
Defined.

(** ** Construction and start-up *)

Lemma init_without_token (invalid_url : string -> option string)
    (environ : string -> option string)
    (base : option string) (log : list request) :
  getenv environ "BOT_TOKEN" "" = "" ->
  Client.__init__ invalid_url environ base None log
  = (Raise (as_exception ConfigurationError), log).
Proof.
  intros H. unfold Client.__init__. cbn [str_or]. rewrite H. reflexivity.
Qed.

(** C4: with no token argument and [BOT_TOKEN] unset, [__init__] raises the
    configuration error with the request log untouched and returns no client;
    [main], which constructs the client that way, exits with status 1
    without sending a request and without reaching [mcp.run]. *)
Theorem missing_credential_is_fatal
    (invalid_url : string -> option string)
    (mcp_run : option Client.APIClient -> M unit)
    (environ : string -> option string) (base : option string)
    (log : list request) :
  environ "BOT_TOKEN" = None ->
  Client.__init__ invalid_url environ base None log
  = (Raise (as_exception ConfigurationError), log)
  /\ exists status,
       Server.main mcp_run invalid_url environ log = (Return status, log)
       /\ status <> 0.
Proof.
  intros H.
  assert (E : getenv environ "BOT_TOKEN" "" = "")
    by (unfold getenv; rewrite H; reflexivity).
  split; [apply init_without_token, E|].
  exists 1. split; [|lia].
  unfold Server.main, try_except, bind.
  rewrite (init_without_token invalid_url environ None log E). reflexivity.
Qed.

Lemma missing_credential_is_fatal_witness :
  Client.__init__ accepts_every_url (fun _ => None) None None []
  = (Raise (mk_exn ValueError "BOT_TOKEN environment variable must be set"), [])
  /\ exists status,
       Server.main (fun _ => ret tt) accepts_every_url (fun _ => None) []
       = (Return status, [])
       /\ status <> 0.
Proof.
  apply (missing_credential_is_fatal accepts_every_url (fun _ => ret tt)
           (fun _ => None) None []).
  reflexivity.
Defined.

(** C10: an empty [BOT_TOKEN] counts as missing: with no token argument,
    construction under an environment where [BOT_TOKEN] is the empty string
    raises the configuration error, the same outcome as under an environment
    where it is unset. *)
Theorem empty_token_is_missing
    (invalid_url : string -> option string)
    (environ unset : string -> option string) (base : option string)
    (log : list request) :
  environ "BOT_TOKEN" = Some "" ->
  unset "BOT_TOKEN" = None ->
  Client.__init__ invalid_url environ base None log
  = (Raise (as_exception ConfigurationError), log)
  /\ Client.__init__ invalid_url environ base None log
     = Client.__init__ invalid_url unset base None log.
Proof.
  intros H U.
  assert (E : Client.__init__ invalid_url environ base None log
              = (Raise (as_exception ConfigurationError), log))
    by (apply init_without_token; unfold getenv; rewrite H; reflexivity).
  split; [exact E|].
  rewrite E. symmetry.
  apply init_without_token. unfold getenv. rewrite U. reflexivity.
Qed.

Lemma empty_token_is_missing_witness :
  Client.__init__ accepts_every_url
    (fun name => if String.eqb name "BOT_TOKEN" then Some "" else None) None None []
  = (Raise (mk_exn ValueError "BOT_TOKEN environment variable must be set"), [])
  /\ Client.__init__ accepts_every_url
       (fun name => if String.eqb name "BOT_TOKEN" then Some "" else None) None None []
     = Client.__init__ accepts_every_url (fun _ => None) None None [].
Proof.
  apply (empty_token_is_missing accepts_every_url
           (fun name => if String.eqb name "BOT_TOKEN" then Some "" else None)
           (fun _ => None) None []); reflexivity.
Defined.

(** ** Response normalization *)

Section Normalization.

Variable net : request -> outcome.
Variable repr : value -> string.

Lemma handle_success (r : response) (kind : string) (log : list request) :
  200 <= status_code r < 300 ->
  Client._handle_response repr r kind log = (json r, log).
Proof.
  intros H. unfold Client._handle_response.
  replace (status_code r >=? 200) with true by (symmetry; apply Z.geb_le; lia).
  replace (status_code r <? 300) with true by (symmetry; apply Z.ltb_lt; lia).
  reflexivity.
Qed.

Lemma handle_401 (r : response) (kind : string) (log : list request) :
  status_code r = 401 ->
  Client._handle_response repr r kind log
  = (Raise (as_exception AuthenticationError), log).
Proof.
  intros H. unfold Client._handle_response. rewrite H. reflexivity.
Qed.

Lemma handle_403 (r : response) (kind : string) (log : list request) :
  status_code r = 403 ->
  Client._handle_response repr r kind log
  = (Raise (as_exception (AccessDeniedError kind)), log).
Proof.
  intros H. unfold Client._handle_response. rewrite H. reflexivity.
Qed.

Lemma handle_404 (r : response) (kind : string) (log : list request) :
  status_code r = 404 ->
  Client._handle_response repr r kind log
  = (Raise (as_exception (NotFoundError kind)), log).
Proof.
  intros H. unfold Client._handle_response. rewrite H. reflexivity.
Qed.

(** The message of a backend error: the [error] field of the body,
    formatted, or the fixed string. *)
Lemma handle_5xx (r : response) (kind : string) (log : list request) :
  500 <= status_code r ->
  Client._handle_response repr r kind log
  = (Raise (as_exception
              (BackendError
                 (match error_field r with
                  | Some v => Client.format repr v
                  | None => "Unknown backend error"
                  end))), log).
Proof.
  intros H. unfold Client._handle_response.
  replace (status_code r <? 300) with false by (symmetry; apply Z.ltb_ge; lia).
  rewrite andb_false_r.
  replace (status_code r =? 401) with false by (symmetry; apply Z.eqb_neq; lia).
  replace (status_code r =? 403) with false by (symmetry; apply Z.eqb_neq; lia).
  replace (status_code r =? 404) with false by (symmetry; apply Z.eqb_neq; lia).
  replace (status_code r >=? 500) with true by (symmetry; apply Z.geb_le; lia).
  unfold error_field, bind, try_except, lift.
  destruct (json r) as [v|e].
  - destruct v as [| b | n | f | s | l | d]; try reflexivity.
    cbn [value_get]. destruct (dict_lookup d "error"); reflexivity.
  - cbn [find_handler]. rewrite isinstance_Exception. reflexivity.
Qed.

Lemma handle_other (r : response) (kind : string) (log : list request) :
  ~ 200 <= status_code r < 300 ->
  status_code r <> 401 -> status_code r <> 403 -> status_code r <> 404 ->
  status_code r < 500 ->
  Client._handle_response repr r kind log
  = (Raise (as_exception (RequestFailed (status_code r))), log).
Proof.
  intros H2 H401 H403 H404 H5. unfold Client._handle_response.
  replace ((status_code r >=? 200) && (status_code r <? 300)) with false.
  2:{ symmetry. apply andb_false_iff.
      destruct (Z_lt_ge_dec (status_code r) 200) as [L|G].
      - left. rewrite Z.geb_leb. apply Z.leb_gt. lia.
      - right. apply Z.ltb_ge. lia. }
  replace (status_code r =? 401) with false by (symmetry; apply Z.eqb_neq; lia).
  replace (status_code r =? 403) with false by (symmetry; apply Z.eqb_neq; lia).
  replace (status_code r =? 404) with false by (symmetry; apply Z.eqb_neq; lia).
  replace (status_code r >=? 500) with false
    by (symmetry; rewrite Z.geb_leb; apply Z.leb_gt; lia).
  reflexivity.
Qed.

(** Once the network has answered with [r], every method is
    [_handle_response] on [r] followed by the method's own last step,
    under the two transport handlers, with one request in the log. *)
Lemma call_responded (self : Client.APIClient) (op : operation)
    (log : list request) (r : response) :
  (forall q, net q = Responds r) ->
  snd (Client.call net repr self op log) <> log ->
  exists q,
    Client.call net repr self op log
    = try_except
        (bind (Client._handle_response repr r (Client.resource_type op))
              (Client.finish op))
        (Client.transport_handlers value) (log ++ [q])%list.
Proof.
  intros Hnet Hsent.
  assert (Hgate : match op with
                  | GetWorkspaceFile _ _ path => PyStr.contains ".." path = false
                  | GetHealth => False
                  | _ => True
                  end).
  { destruct op as [| p | p | p | p s | p s | p s | p s path | | p s | |];
      try exact I.
    - cbn [Client.call] in Hsent. unfold Client.get_workspace_file in Hsent.
      destruct (PyStr.contains ".." path); [|reflexivity].
      exfalso. apply Hsent. reflexivity.
    - apply Hsent. reflexivity. }
  clear Hsent.
  destruct op as [| p | p | p | p s | p s | p s | p s path | | p s | |];
    try contradiction;
    cbn [Client.call];
    unfold Client.list_projects, Client.get_project,
      Client.check_project_access, Client.list_sessions,
      Client.get_session, Client.get_session_k8s_resources,
      Client.list_session_workspace, Client.get_workspace_file,
      Client.list_ootb_workflows, Client.get_workflow_metadata,
      Client.get_cluster_info, Client.get_health, Client.finish;
    try rewrite Hgate;
    unfold try_except, bind, Client.get; cbv zeta;
    rewrite Hnet; cbn [Client.collection_field Client.resource_type];
    match goal with
    | |- context [Client._handle_response _ _ _ (log ++ [?q0])%list] =>
        exists q0
    end;
    match goal with
    | |- context [Client._handle_response ?f ?x ?k ?l] =>
        destruct (Client._handle_response f x k l) as [[v|e] l']
    end; reflexivity.
Qed.

Lemma handle_keeps_log (r : response) (kind : string) (log : list request) :
  snd (Client._handle_response repr r kind log) = log.
Proof.
  destruct (Z_lt_ge_dec (status_code r) 500) as [L5|G5].
  2:{ rewrite handle_5xx by lia. reflexivity. }
  destruct (Z.eq_dec (status_code r) 401) as [E1|N1];
    [rewrite handle_401 by assumption; reflexivity|].
  destruct (Z.eq_dec (status_code r) 403) as [E3|N3];
    [rewrite handle_403 by assumption; reflexivity|].
  destruct (Z.eq_dec (status_code r) 404) as [E4|N4];
    [rewrite handle_404 by assumption; reflexivity|].
  destruct (Z_lt_ge_dec (status_code r) 200) as [L2|G2];
    [rewrite handle_other by lia; reflexivity|].
  destruct (Z_lt_ge_dec (status_code r) 300) as [L3|G3];
    [rewrite handle_success by lia; reflexivity|].
  rewrite handle_other by lia. reflexivity.
Qed.

Lemma value_get_keeps_log (v : value) (key : string) (default : value)
    (log : list request) :
  snd (value_get v key default log) = log.
Proof.
  destruct v; try reflexivity.
  cbn [value_get]. destruct (dict_lookup entries key); reflexivity.
Qed.

Lemma finish_keeps_log (op : operation) (v : value) (log : list request) :
  snd (Client.finish op v log) = log.
Proof.
  unfold Client.finish. destruct (Client.collection_field op).
  - apply value_get_keeps_log.
  - reflexivity.
Qed.

Lemma transport_handlers_keep_log (e : exn) (log : list request) :
  snd (match find_handler e (Client.transport_handlers value) with
       | Some h => h e log
       | None => (Raise e, log)
       end) = log.
Proof.
  cbn [find_handler Client.transport_handlers].
  destruct (isinstance e ConnectError); [reflexivity|].
  destruct (isinstance e TimeoutException); reflexivity.
Qed.

Lemma normalized_keeps_log (r : response) (op : operation) (log : list request) :
  snd (try_except
         (bind (Client._handle_response repr r (Client.resource_type op))
               (Client.finish op))
         (Client.transport_handlers value) log) = log.
Proof.
  unfold try_except, bind.
  pose proof (handle_keeps_log r (Client.resource_type op) log) as Hh.
  destruct (Client._handle_response repr r (Client.resource_type op) log)
    as [[v|e] l]; cbn [snd] in Hh; subst l.
  - pose proof (finish_keeps_log op v log) as Hf.
    destruct (Client.finish op v log) as [[w|e] l]; cbn [snd] in Hf; subst l.
    + reflexivity.
    + apply transport_handlers_keep_log.
  - apply transport_handlers_keep_log.
Qed.



(** C5: on a response with a status in [200,300) whose body is a JSON
    object, a listing method ([list_projects] and [list_sessions] with
    field [items], [list_session_workspace] with [files],
    [list_ootb_workflows] with [workflows]) returns the value of its
    collection field, and the empty list when the body has no such
    field; it does not raise. *)
Theorem listing_unwraps_collection (self : Client.APIClient) (op : operation)
    (field : string) (log : list request) (r : response) (body : pydict) :
  match op with
  | ListProjects | ListSessions _ => field = "items"
  | ListSessionWorkspace _ _ => field = "files"
  | ListOotbWorkflows => field = "workflows"
  | _ => False
  end ->
  (forall q, net q = Responds r) ->
  200 <= status_code r < 300 ->
  json r = Return (VDict body) ->
  (forall items, dict_lookup body field = Some items ->
     fst (Client.call net repr self op log) = Return items)
  /\ (dict_lookup body field = None ->
      fst (Client.call net repr self op log) = Return (VList [])).
Proof.
  intros Hop Hnet Hst Hbody.
  assert (Hfield : Client.collection_field op = Some field)
    by (destruct op; cbn in Hop |- *; try contradiction; subst; reflexivity).
  assert (Hsent : snd (Client.call net repr self op log) <> log).
  { destruct op; try contradiction; cbn [Client.call];
      unfold Client.list_projects, Client.list_sessions,
        Client.list_session_workspace, Client.list_ootb_workflows,
        try_except, bind, Client.get; cbv zeta; rewrite Hnet;
      rewrite handle_success by exact Hst; rewrite Hbody;
      cbn [value_get];
      match goal with
      | |- context [dict_lookup ?d ?k] => destruct (dict_lookup d k)
      end; cbn [ret snd]; intros E;
      apply (f_equal (@List.length request)) in E;
      rewrite List.length_app in E; cbn in E; lia. }
  destruct (call_responded self op log r Hnet Hsent) as [q Hcall].
  rewrite Hcall. unfold try_except, bind, Client.finish.
  rewrite handle_success by exact Hst. rewrite Hbody, Hfield.
  cbn [value_get].
  split.
  - intros items Hitems. rewrite Hitems. reflexivity.
  - intros Hnone. rewrite Hnone. reflexivity.
Qed.

End Normalization.


Lemma listing_unwraps_collection_witness :
  (forall items,
     dict_lookup [("kind", VStr "WorkspaceListing")] "files" = Some items ->
     fst (Client.call
            (answers (mk_response 200
                        (Return (VDict [("kind", VStr "WorkspaceListing")]))))
            no_repr test_client
            (ListSessionWorkspace "test-project" "test-session") [])
     = Return items)
  /\ (dict_lookup [("kind", VStr "WorkspaceListing")] "files" = None ->
      fst (Client.call
             (answers (mk_response 200
                         (Return (VDict [("kind", VStr "WorkspaceListing")]))))
             no_repr test_client
             (ListSessionWorkspace "test-project" "test-session") [])
      = Return (VList [])).
Proof.
  apply (listing_unwraps_collection
           (answers (mk_response 200
                       (Return (VDict [("kind", VStr "WorkspaceListing")]))))
           no_repr test_client
           (ListSessionWorkspace "test-project" "test-session") "files" []
           (mk_response 200 (Return (VDict [("kind", VStr "WorkspaceListing")])))
           [("kind", VStr "WorkspaceListing")]).
  - reflexivity.
  - intros q. reflexivity.
  - simpl. lia.
  - reflexivity.
Defined.

(** The project listing of the test suite: two items come back in order. *)
Example list_projects_two_items :
  fst (Client.call
         (answers (mk_response 200
                     (Return (VDict
                        [("items",
                          VList [VDict [("metadata", VDict [("name", VStr "p1")])];
                                 VDict [("metadata", VDict [("name", VStr "p2")])]])]))))
         no_repr test_client ListProjects [])
  = Return (VList [VDict [("metadata", VDict [("name", VStr "p1")])];
                   VDict [("metadata", VDict [("name", VStr "p2")])]]).
Proof. reflexivity. Qed.

(** ** A project that does not exist *)

(** C7: on a 404 response [get_project] raises the not-found exception for
    the resource kind [project]: its message is [Project not found], which
    names the kind, with the capital that [capitalize] gives it, and has
    the words [not found]. *)
Theorem get_project_not_found (net : request -> outcome) (repr : value -> string)
    (self : Client.APIClient) (project_name : string) (log : list request)
    (r : response) :
  (forall q, net q = Responds r) ->
  status_code r = 404 ->
  exists message,
    fst (Client.get_project net repr self project_name log)
    = Raise (mk_exn Exception message)
    /\ mk_exn Exception message = as_exception (NotFoundError "project")
    /\ message = "Project not found"
    /\ PyStr.contains (PyStr.capitalize "project") message = true
    /\ PyStr.contains "project" (PyStr.lower message) = true
    /\ PyStr.contains "not found" message = true.
Proof.
  intros Hnet Hst. exists "Project not found".
  repeat split.
  unfold Client.get_project, try_except, bind, Client.get. cbv zeta.
  rewrite Hnet. rewrite handle_404 by exact Hst. reflexivity.
Qed.

Lemma get_project_not_found_witness :
  exists message,
    fst (Client.get_project (answers (mk_response 404 (Return VNone))) no_repr
           test_client "nonexistent" [])
    = Raise (mk_exn Exception message)
    /\ mk_exn Exception message = as_exception (NotFoundError "project")
    /\ message = "Project not found"
    /\ PyStr.contains (PyStr.capitalize "project") message = true
    /\ PyStr.contains "project" (PyStr.lower message) = true
    /\ PyStr.contains "not found" message = true.
Proof.
  apply (get_project_not_found (answers (mk_response 404 (Return VNone))) no_repr
           test_client "nonexistent" [] (mk_response 404 (Return VNone))).
  - intros q. reflexivity.
  - reflexivity.
Defined.

(** ** The dispatcher boundary *)

Section Boundary.

Variable net : request -> outcome.
Variable repr : value -> string.
Variable json_dumps : value -> string.

(** A [try] block under [except Exception as e: return label + str(e)]. *)
Lemma caught_by_exception (body : M string) (label : string)
    (log : list request) :
  try_except body [(Exception, fun e => ret (label ++ exc_str e))] log
  = match body log with
    | (Return text, log') => (Return text, log')
    | (Raise e, log') => (Return (label ++ exc_str e), log')
    end.
Proof.
  unfold try_except. destruct (body log) as [[text|e] l]; [reflexivity|].
  cbn [find_handler]. rewrite isinstance_Exception. reflexivity.
Qed.

(** The same under [except ValueError] followed by [except Exception]. *)
Lemma caught_by_value_error_or_exception (body : M string)
    (invalid label : string) (log : list request) :
  try_except body
    [(ValueError, fun e => ret (invalid ++ exc_str e));
     (Exception, fun e => ret (label ++ exc_str e))] log
  = match body log with
    | (Return text, log') => (Return text, log')
    | (Raise e, log') =>
        (Return ((if isinstance e ValueError then invalid else label)
                   ++ exc_str e), log')
    end.
Proof.
  unfold try_except. destruct (body log) as [[text|e] l]; [reflexivity|].
  cbn [find_handler]. destruct (isinstance e ValueError); [reflexivity|].
  rewrite isinstance_Exception. reflexivity.
Qed.

(** Every tool is its [try] block under a handler that puts the tool's
    label before the message; [get_workspace_file] has a second label
    for a [ValueError]. *)
Lemma call_tool_unfold (api_client : option Client.APIClient) (i : operation)
    (log : list request) :
  Server.call_tool net repr json_dumps api_client i log
  = match Server.try_block net repr json_dumps api_client i log with
    | (Return text, log') => (Return text, log')
    | (Raise e, log') =>
        (Return ((match i with
                  | GetWorkspaceFile _ _ _ =>
                      if isinstance e ValueError then "Invalid path: "
                      else Server.error_label i
                  | _ => Server.error_label i
                  end) ++ exc_str e), log')
    end.
Proof.
  destruct i; cbn [Server.call_tool Server.try_block Server.error_label];
    first [apply caught_by_exception | apply caught_by_value_error_or_exception].
Qed.

(** C3: every invocation of a tool returns a text: whatever the client
    raises, the path-gate [ValueError] included, and whatever else goes
    wrong in the [try] block (no client yet, a collection without a
    length), no exception leaves the tool. *)
Theorem tools_always_return_text (api_client : option Client.APIClient)
    (i : operation) (log : list request) :
  (exists text log',
     Server.call_tool net repr json_dumps api_client i log = (Return text, log'))
  /\ (forall e log',
        Server.try_block net repr json_dumps api_client i log = (Raise e, log') ->
        exists text,
          Server.call_tool net repr json_dumps api_client i log
          = (Return text, log')).
Proof.
  rewrite call_tool_unfold.
  destruct (Server.try_block net repr json_dumps api_client i log)
    as [[text|e] l].
  - split; [now exists text, l|]. intros e l' H. discriminate H.
  - split; [eexists; eexists; reflexivity|].
    intros e' l' H. injection H as -> ->. eexists. reflexivity.
Qed.

(** The path gate, seen from the dispatcher. *)
Lemma gate_reaches_dispatcher (c : Client.APIClient) (p s path : string)
    (log : list request) :
  PyStr.contains ".." path = true ->
  Server.try_block net repr json_dumps (Some c) (GetWorkspaceFile p s path) log
  = (Raise (as_exception ValidationError), log).
Proof.
  intros H. cbn [Server.try_block].
  unfold Server.get_workspace_file_try, Server.method, bind.
  rewrite gate_rejects by exact H. reflexivity.
Qed.

(** C6, as amended: when the [try] block of a tool fails with [e], and
    this is not a [ValueError] caught by [get_workspace_file], the text
    returned is the tool's label, which begins with [Error], followed by
    the message of [e] as it is and nothing else: no traceback is added,
    and what the message names is passed on.  The path-gate error of
    [get_workspace_file] comes back as
    [Invalid path: Path cannot contain '..' components]. *)
Theorem failure_text (api_client : option Client.APIClient) (i : operation)
    (log log' : list request) (e : exn) :
  Server.try_block net repr json_dumps api_client i log = (Raise e, log') ->
  PyStr.startswith (Server.error_label i) "Error" = true
  /\ ((forall p s path, i <> GetWorkspaceFile p s path)
      \/ isinstance e ValueError = false ->
      Server.call_tool net repr json_dumps api_client i log
      = (Return (Server.error_label i ++ exc_str e), log'))
  /\ (forall c p s path,
        api_client = Some c ->
        i = GetWorkspaceFile p s path ->
        PyStr.contains ".." path = true ->
        Server.call_tool net repr json_dumps api_client i log
        = (Return "Invalid path: Path cannot contain '..' components", log)).
Proof.
  intros Hfail. split; [destruct i; reflexivity|].
  rewrite call_tool_unfold. split.
  - rewrite Hfail. intros [Hother|Hclass].
    + destruct i as [| p | p | p | p s | p s | p s | p s path | | p s | |];
        try reflexivity.
      now elim (Hother p s path).
    + rewrite Hclass. destruct i; reflexivity.
  - intros c p s path -> -> Hgate.
    rewrite gate_reaches_dispatcher by exact Hgate. reflexivity.
Qed.

End Boundary.

Lemma tools_always_return_text_witness :
  exists text,
    Server.call_tool (answers (mk_response 200 (Return VNone))) no_repr no_dumps
      (Some test_client)
      (GetWorkspaceFile "test-project" "test-session" "../etc/passwd") []
    = (Return text, []).
Proof.
  apply (proj2 (tools_always_return_text
                  (answers (mk_response 200 (Return VNone))) no_repr no_dumps
                  (Some test_client)
                  (GetWorkspaceFile "test-project" "test-session" "../etc/passwd")
                  [])
           (mk_exn ValueError "Path cannot contain '..' components") []).
  reflexivity.
Defined.

(** Before [main] has assigned [api_client], a tool still answers with a
    text. *)
Example tool_without_client :
  Server.call_tool (answers (mk_response 200 (Return VNone))) no_repr no_dumps
    None ListProjects []
  = (Return "Error listing projects: 'NoneType' object has no attribute 'list_projects'",
     []).
Proof. reflexivity. Qed.

(** A listing whose collection field is [null] has no length: the tool
    reports the [TypeError] as a text. *)
Example listing_null_collection :
  Server.call_tool
    (answers (mk_response 200 (Return (VDict [("items", VNone)]))))
    no_repr no_dumps (Some test_client) ListProjects []
  = (Return "Error listing projects: object of type 'NoneType' has no len()",
     [mk_request "http://test-backend:8080/api" "Bearer test-token-12345"
        "/projects"]).
Proof. reflexivity. Qed.

(** A 2xx response whose body is not JSON makes [response.json()] raise a
    [JSONDecodeError], a [ValueError]: [get_workspace_file] reports it under
    the label of the path gate. *)
Example json_error_reported_as_invalid_path :
  Server.call_tool
    (answers (mk_response 200
                (Raise (mk_exn JSONDecodeError
                          "Expecting value: line 1 column 1 (char 0)"))))
    no_repr no_dumps (Some test_client)
    (GetWorkspaceFile "test-project" "test-session" "README.md") []
  = (Return "Invalid path: Expecting value: line 1 column 1 (char 0)",
     [mk_request "http://test-backend:8080/api" "Bearer test-token-12345"
        "/projects/test-project/agentic-sessions/test-session/workspace/README.md"]).
Proof. reflexivity. Qed.

Lemma failure_text_witness :
  PyStr.startswith (Server.error_label (GetProject "nonexistent")) "Error" = true
  /\ Server.call_tool (answers (mk_response 404 (Return VNone))) no_repr no_dumps
       (Some test_client) (GetProject "nonexistent") []
     = (Return "Error getting project: Project not found",
        [mk_request "http://test-backend:8080/api" "Bearer test-token-12345"
           "/projects/nonexistent"]).
Proof.
  pose proof (failure_text (answers (mk_response 404 (Return VNone))) no_repr
                no_dumps (Some test_client) (GetProject "nonexistent") []
                [mk_request "http://test-backend:8080/api"
                   "Bearer test-token-12345" "/projects/nonexistent"]
                (mk_exn Exception "Project not found")) as H.
  destruct H as (Hlabel & Htext & _).
  - reflexivity.
  - split; [exact Hlabel|].
    apply Htext. left. intros p s path. discriminate.
Defined.

(** Against the claim as it stands.  The test suite's traversal path
    fails in the dispatcher and the text that comes back does not begin
    with [Error]; and the text of a failing invocation does name internal
    identifiers: a listing whose collection is [null] answers with the
    interpreter's type name [NoneType], the health check with the method
    [AsyncClient.get()] and its keyword [base_url]. *)
Lemma failing_text_refutes_marker_and_identifiers :
  ~ (forall net repr json_dumps api_client i log e log',
       Server.try_block net repr json_dumps api_client i log = (Raise e, log') ->
       exists text,
         Server.call_tool net repr json_dumps api_client i log = (Return text, log')
         /\ PyStr.startswith text "Error" = true)
  /\ (exists e text,
        fst (Server.try_block
               (answers (mk_response 200 (Return (VDict [("items", VNone)]))))
               no_repr no_dumps (Some test_client) ListProjects [])
        = Raise e
        /\ fst (Server.call_tool
                  (answers (mk_response 200 (Return (VDict [("items", VNone)]))))
                  no_repr no_dumps (Some test_client) ListProjects [])
           = Return text
        /\ PyStr.contains "NoneType" text = true)
  /\ (exists e text,
        fst (Server.try_block (answers (mk_response 200 (Return VNone)))
               no_repr no_dumps (Some test_client) GetHealth [])
        = Raise e
        /\ fst (Server.call_tool (answers (mk_response 200 (Return VNone)))
                  no_repr no_dumps (Some test_client) GetHealth [])
           = Return text
        /\ PyStr.contains "AsyncClient.get()" text = true
        /\ PyStr.contains "base_url" text = true).
Proof.
  split; [|split].
  - intros H.
    destruct (H (answers (mk_response 200 (Return VNone))) no_repr no_dumps
                (Some test_client)
                (GetWorkspaceFile "test-project" "test-session" "../etc/passwd")
                [] (as_exception ValidationError) [] eq_refl)
      as [text [Hcall Hprefix]].
    vm_compute in Hcall. injection Hcall as <-.
    vm_compute in Hprefix. discriminate Hprefix.
  - eexists. eexists. repeat split.
  - eexists. eexists. repeat split.
Qed.

(** ** The health check *)

(** The call of [client.get] with a [base_url] keyword is refused, and
    neither [except] clause of [get_health] is for a [TypeError]. *)
Lemma get_health_refused (net : request -> outcome) (repr : value -> string)
    (self : Client.APIClient) (log : list request) :
  Client.get_health net repr self log
  = (Raise (mk_exn TypeError
              "AsyncClient.get() got an unexpected keyword argument 'base_url'"),
     log).
Proof.
  unfold Client.get_health, try_except, bind, Client.get, raise.
  reflexivity.
Qed.

(** C8, on the code as it is: for every client and every network
    [get_health] raises the [TypeError] of the refused [base_url] keyword
    and sends no request at all, so nothing is resolved against any
    address, and the tool answers with that error.  The address the method
    computes for the keyword is not the base address less its suffix
    either: on [http://api.example.com/api] the replacement also removes
    the [/api] of [//api.example.com]. *)
Theorem get_health_sends_nothing (net : request -> outcome)
    (repr : value -> string) (json_dumps : value -> string)
    (self : Client.APIClient) (log : list request) :
  Client.get_health net repr self log
  = (Raise (mk_exn TypeError
              "AsyncClient.get() got an unexpected keyword argument 'base_url'"),
     log)
  /\ Server.get_health net repr json_dumps (Some self) log
     = (Return "Error getting health status: AsyncClient.get() got an unexpected keyword argument 'base_url'",
        log)
  /\ PyStr.replace (Client.base_url api_host_client) "/api" ""
     = "http:/.example.com".
Proof.
  split; [apply get_health_refused|]. split; [|reflexivity].
  unfold Server.get_health, Server.get_health_try, Server.method,
    try_except, bind.
  rewrite get_health_refused. reflexivity.
Qed.

(** * Further properties of client.py and server.py *)

(** ** What each method sends *)

Section Requests.

Variable net : request -> outcome.
Variable repr : value -> string.

Ltac unfold_method :=
  cbn [Client.call];
  unfold Client.list_projects, Client.get_project,
    Client.check_project_access, Client.list_sessions,
    Client.get_session, Client.get_session_k8s_resources,
    Client.list_session_workspace, Client.get_workspace_file,
    Client.list_ootb_workflows, Client.get_workflow_metadata,
    Client.get_cluster_info, Client.get_health.

(** A call that does not reach the transport ends in an exception with
    the log as it was: the path gate's, or the refusal of [get_health]. *)
Lemma call_without_request (self : Client.APIClient) (op : operation)
    (log : list request) :
  reaches_transport op = false ->
  exists e, Client.call net repr self op log = (Raise e, log).
Proof.
  destruct op; cbn [reaches_transport]; try discriminate; intros H.
  - apply negb_false_iff in H. eexists. apply gate_rejects, H.
  - eexists. apply get_health_refused.
Qed.

(** The network's answer to the request of a method is all that the
    method sees of the network. *)
Lemma call_on_response (self : Client.APIClient) (op : operation)
    (log : list request) (r : response) :
  reaches_transport op = true ->
  net (request_of self op) = Responds r ->
  Client.call net repr self op log
  = try_except
      (bind (Client._handle_response repr r (Client.resource_type op))
            (Client.finish op))
      (Client.transport_handlers value) (log ++ [request_of self op])%list.
Proof.
  intros Hgate Hnet.
  destruct op as [| p | p | p | p s | p s | p s | p s path | | p s | |];
    try discriminate Hgate;
    unfold_method;
    try (cbn [reaches_transport] in Hgate; apply negb_true_iff in Hgate; rewrite Hgate);
    unfold Client.finish, try_except, bind, Client.get, request_of, url in *;
    cbv beta iota zeta in *; rewrite Hnet;
    cbn [Client.collection_field Client.resource_type];
    match goal with
    | |- context [Client._handle_response ?f ?x ?k ?l] =>
        destruct (Client._handle_response f x k l) as [[v|e] l']
    end; reflexivity.
Qed.

Lemma call_on_failure (self : Client.APIClient) (op : operation)
    (log : list request) (e : exn) :
  reaches_transport op = true ->
  net (request_of self op) = Fails e ->
  Client.call net repr self op log
  = match find_handler e (Client.transport_handlers value) with
    | Some h => h e (log ++ [request_of self op])%list
    | None => (Raise e, (log ++ [request_of self op])%list)
    end.
Proof.
  intros Hgate Hnet.
  destruct op as [| p | p | p | p s | p s | p s | p s path | | p s | |];
    try discriminate Hgate;
    unfold_method;
    try (cbn [reaches_transport] in Hgate; apply negb_true_iff in Hgate; rewrite Hgate);
    unfold try_except, bind, Client.get, request_of, url in *;
    cbv beta iota zeta in *; rewrite Hnet;
    reflexivity.
Qed.

Lemma transport_handlers_raise (e : exn) (log : list request) :
  exists e',
    match find_handler e (Client.transport_handlers value) with
    | Some h => h e log
    | None => (Raise e, log)
    end = (@Raise value e', log).
Proof.
  cbn [find_handler Client.transport_handlers].
  destruct (isinstance e ConnectError); [eexists; reflexivity|].
  destruct (isinstance e TimeoutException); eexists; reflexivity.
Qed.

Lemma timeout_is_not_connect_error (e : exn) :
  isinstance e TimeoutException = true -> isinstance e ConnectError = false.
Proof.
  destruct e as [cls msg]. destruct cls; cbn; congruence.
Qed.

Lemma handle_failure (r : response) (kind : string) (log : list request) :
  ~ 200 <= status_code r < 300 ->
  exists msg,
    Client._handle_response repr r kind log = (Raise (mk_exn Exception msg), log).
Proof.
  intros H.
  destruct (Z_lt_ge_dec (status_code r) 500) as [L5|G5].
  2:{ eexists. apply handle_5xx. lia. }
  destruct (Z.eq_dec (status_code r) 401) as [E1|N1];
    [eexists; apply handle_401, E1|].
  destruct (Z.eq_dec (status_code r) 403) as [E3|N3];
    [eexists; apply handle_403, E3|].
  destruct (Z.eq_dec (status_code r) 404) as [E4|N4];
    [eexists; apply handle_404, E4|].
  eexists. apply handle_other; assumption.
Qed.

(** X1: a call that reaches the transport -- any method but [get_health],
    with a path that passes the gate -- appends exactly one request to the
    log, the one for its URL template, with the client's [Authorization]
    header, whether the network answers, with whatever status, or fails.
    A gated call appends none, and neither does [get_health].  There is no
    second attempt on any path. *)
Theorem method_sends_one_request (self : Client.APIClient) (op : operation)
    (log : list request) :
  snd (Client.call net repr self op log)
  = if reaches_transport op then (log ++ [request_of self op])%list else log.
Proof.
  destruct (reaches_transport op) eqn:Hgate.
  - destruct (net (request_of self op)) as [r|e] eqn:Hnet.
    + rewrite (call_on_response self op log r Hgate Hnet).
      apply normalized_keeps_log.
    + rewrite (call_on_failure self op log e Hgate Hnet).
      apply transport_handlers_keep_log.
  - destruct (call_without_request self op log Hgate) as [e He].
    rewrite He. reflexivity.
Qed.

(** X2: for every method but [get_health] (which does not reach the
    transport): when the transport fails with a [ConnectError] the method
    raises the connectivity error, and when it fails with a
    [TimeoutException] (a [ConnectTimeout] or [ReadTimeout] too) it raises
    the time-out error; the two messages differ. *)
Theorem transport_failures_are_named (self : Client.APIClient) (op : operation)
    (log : list request) (e : exn) :
  reaches_transport op = true ->
  net (request_of self op) = Fails e ->
  (isinstance e ConnectError = true ->
   fst (Client.call net repr self op log) = Raise (as_exception ConnectivityError))
  /\ (isinstance e TimeoutException = true ->
      fst (Client.call net repr self op log) = Raise (as_exception TimeoutError))
  /\ exc_str (as_exception ConnectivityError) <> exc_str (as_exception TimeoutError).
Proof.
  intros Hgate Hnet.
  rewrite (call_on_failure self op log e Hgate Hnet).
  cbn [find_handler Client.transport_handlers].
  split; [|split].
  - intros Hc. rewrite Hc. reflexivity.
  - intros Ht. rewrite (timeout_is_not_connect_error e Ht), Ht. reflexivity.
  - discriminate.
Qed.

(** X3: for every method but [get_health]: a transport failure of any
    other class (a [ReadError], a [ProtocolError], ...) is not translated:
    the method lets the very exception through. *)
Theorem other_transport_errors_propagate (self : Client.APIClient)
    (op : operation) (log : list request) (e : exn) :
  reaches_transport op = true ->
  net (request_of self op) = Fails e ->
  isinstance e ConnectError = false ->
  isinstance e TimeoutException = false ->
  Client.call net repr self op log = (Raise e, (log ++ [request_of self op])%list).
Proof.
  intros Hgate Hnet Hc Ht.
  rewrite (call_on_failure self op log e Hgate Hnet).
  cbn [find_handler Client.transport_handlers]. rewrite Hc, Ht. reflexivity.
Qed.

(** X4: a method returns a value only for a response with a status in
    [200,300) whose body parsed: then the value is the body itself, or for
    a listing the collection field of the body (a JSON object), the empty
    list when the field is absent.  No error status and no transport
    failure is ever reported as a value. *)
Theorem value_only_on_success (self : Client.APIClient) (op : operation)
    (log log' : list request) (v : value) :
  Client.call net repr self op log = (Return v, log') ->
  exists r body,
    net (request_of self op) = Responds r
    /\ 200 <= status_code r < 300
    /\ json r = Return body
    /\ match Client.collection_field op with
       | None => v = body
       | Some field =>
           exists d, body = VDict d
                     /\ v = match dict_lookup d field with
                            | Some items => items
                            | None => VList []
                            end
       end.
Proof.
  intros Hcall.
  destruct (reaches_transport op) eqn:Hgate.
  2:{ destruct (call_without_request self op log Hgate) as [e He].
      rewrite He in Hcall. discriminate Hcall. }
  destruct (net (request_of self op)) as [r|e] eqn:Hnet.
  2:{ rewrite (call_on_failure self op log e Hgate Hnet) in Hcall.
      destruct (transport_handlers_raise e (log ++ [request_of self op])%list)
        as [e' He'].
      rewrite He' in Hcall. discriminate Hcall. }
  rewrite (call_on_response self op log r Hgate Hnet) in Hcall.
  unfold try_except, bind in Hcall.
  destruct (Z_lt_ge_dec (status_code r) 200) as [L2|G2].
  { destruct (handle_failure r (Client.resource_type op)
                (log ++ [request_of self op])%list) as [msg Hmsg]; [lia|].
    rewrite Hmsg in Hcall. discriminate Hcall. }
  destruct (Z_lt_ge_dec (status_code r) 300) as [L3|G3].
  2:{ destruct (handle_failure r (Client.resource_type op)
                  (log ++ [request_of self op])%list) as [msg Hmsg]; [lia|].
      rewrite Hmsg in Hcall. discriminate Hcall. }
  rewrite handle_success in Hcall by lia.
  destruct (json r) as [body|e] eqn:Hjson.
  2:{ destruct (transport_handlers_raise e (log ++ [request_of self op])%list)
        as [e' He'].
      rewrite He' in Hcall. discriminate Hcall. }
  exists r, body.
  split; [reflexivity|]. split; [lia|]. split; [exact Hjson|].
  unfold Client.finish in Hcall.
  destruct (Client.collection_field op) as [field|].
  - destruct body as [| b | n | f | s | l | d];
      try (cbn in Hcall; discriminate Hcall).
    exists d. split; [reflexivity|].
    cbn [value_get] in Hcall.
    destruct (dict_lookup d field); cbn in Hcall; congruence.
  - cbn in Hcall. congruence.
Qed.

(** X5: a listing method that gets a 2xx response whose body is JSON but
    not an object (an array, [null], a string, a number) raises an
    [AttributeError] naming the type: the body has no [get]. *)
Theorem listing_of_non_object_body (self : Client.APIClient) (op : operation)
    (field : string) (log : list request) (r : response) (body : value) :
  Client.collection_field op = Some field ->
  net (request_of self op) = Responds r ->
  200 <= status_code r < 300 ->
  json r = Return body ->
  (forall d, body <> VDict d) ->
  Client.call net repr self op log
  = (Raise (mk_exn AttributeError
              ("'" ++ type_name body ++ "' object has no attribute 'get'")),
     (log ++ [request_of self op])%list).
Proof.
  intros Hfield Hnet Hst Hjson Hbody.
  assert (Hgate : reaches_transport op = true)
    by (destruct op; try discriminate Hfield; reflexivity).
  rewrite (call_on_response self op log r Hgate Hnet).
  unfold try_except, bind, Client.finish.
  rewrite handle_success by exact Hst. rewrite Hjson, Hfield.
  destruct body as [| b | n | f | s | l | d]; try reflexivity.
  now elim (Hbody d).
Qed.

(** X6: for every method but [get_health]: when a 2xx response has a body
    that [response.json()] cannot decode, the method lets the decoding
    error through unchanged. *)
Theorem undecodable_body_propagates (self : Client.APIClient) (op : operation)
    (log : list request) (r : response) (msg : string) :
  reaches_transport op = true ->
  net (request_of self op) = Responds r ->
  200 <= status_code r < 300 ->
  json r = Raise (mk_exn JSONDecodeError msg) ->
  Client.call net repr self op log
  = (Raise (mk_exn JSONDecodeError msg), (log ++ [request_of self op])%list).
Proof.
  intros Hgate Hnet Hst Hjson.
  rewrite (call_on_response self op log r Hgate Hnet).
  unfold try_except, bind.
  rewrite handle_success by exact Hst. rewrite Hjson. reflexivity.
Qed.

End Requests.

Lemma transport_failures_are_named_witness :
  fst (Client.call (fails (mk_exn ConnectTimeout "connect timed out")) no_repr
         test_client (GetSession "test-project" "test-session") [])
  = Raise (mk_exn Exception
             "Request timed out after 30s. Backend may be overloaded.").
Proof.
  apply (transport_failures_are_named
           (fails (mk_exn ConnectTimeout "connect timed out")) no_repr
           test_client (GetSession "test-project" "test-session") []
           (mk_exn ConnectTimeout "connect timed out")); reflexivity.
Defined.

Lemma other_transport_errors_propagate_witness :
  Client.call (fails (mk_exn ReadError "connection reset")) no_repr
    test_client GetClusterInfo []
  = (Raise (mk_exn ReadError "connection reset"),
     [mk_request "http://test-backend:8080/api" "Bearer test-token-12345"
        "/cluster-info"]).
Proof.
  apply (other_transport_errors_propagate
           (fails (mk_exn ReadError "connection reset")) no_repr
           test_client GetClusterInfo [] (mk_exn ReadError "connection reset"));
    reflexivity.
Defined.

Lemma value_only_on_success_witness :
  exists r body,
    answers (mk_response 201 (Return (VDict [("files", VList [VStr "a.txt"])])))
      (request_of test_client (ListSessionWorkspace "p" "s")) = Responds r
    /\ 200 <= status_code r < 300
    /\ json r = Return body
    /\ exists d, body = VDict d
                 /\ VList [VStr "a.txt"]
                    = match dict_lookup d "files" with
                      | Some items => items
                      | None => VList []
                      end.
Proof.
  apply (value_only_on_success
           (answers (mk_response 201 (Return (VDict [("files", VList [VStr "a.txt"])]))))
           no_repr test_client (ListSessionWorkspace "p" "s") []
           [request_of test_client (ListSessionWorkspace "p" "s")]
           (VList [VStr "a.txt"])).
  reflexivity.
Defined.

Lemma listing_of_non_object_body_witness :
  Client.call (answers (mk_response 200 (Return (VList [])))) no_repr
    test_client ListProjects []
  = (Raise (mk_exn AttributeError "'list' object has no attribute 'get'"),
     [mk_request "http://test-backend:8080/api" "Bearer test-token-12345"
        "/projects"]).
Proof.
  apply (listing_of_non_object_body
           (answers (mk_response 200 (Return (VList [])))) no_repr
           test_client ListProjects "items" []
           (mk_response 200 (Return (VList []))) (VList [])).
  - reflexivity.
  - reflexivity.
  - simpl. lia.
  - reflexivity.
  - intros d. discriminate.
Defined.

Lemma undecodable_body_propagates_witness :
  Client.call
    (answers (mk_response 204 (Raise (mk_exn JSONDecodeError "Expecting value"))))
    no_repr test_client (GetProject "p1") []
  = (Raise (mk_exn JSONDecodeError "Expecting value"),
     [mk_request "http://test-backend:8080/api" "Bearer test-token-12345"
        "/projects/p1"]).
Proof.
  apply (undecodable_body_propagates
           (answers (mk_response 204 (Raise (mk_exn JSONDecodeError "Expecting value"))))
           no_repr test_client (GetProject "p1") []
           (mk_response 204 (Raise (mk_exn JSONDecodeError "Expecting value")))
           "Expecting value").
  - reflexivity.
  - reflexivity.
  - simpl. lia.
  - reflexivity.
Defined.

(** ** Construction, and what a constructed client sends *)

Lemma init_with_token (invalid_url : string -> option string)
    (environ : string -> option string)
    (base token : option string) (log : list request) :
  str_or token (getenv environ "BOT_TOKEN" "") <> "" ->
  Client.__init__ invalid_url environ base token log
  = match invalid_url
            (str_or base (getenv environ "BACKEND_API_URL"
                            Client.default_backend_api_url)) with
    | Some message => (Raise (mk_exn InvalidURL message), log)
    | None =>
        (Return
           (Client.mk_APIClient
              (str_or base (getenv environ "BACKEND_API_URL"
                              Client.default_backend_api_url))
              (str_or token (getenv environ "BOT_TOKEN" ""))
              (mk_AsyncClient
                 (str_or base (getenv environ "BACKEND_API_URL"
                                 Client.default_backend_api_url))
                 ("Bearer " ++ str_or token (getenv environ "BOT_TOKEN" ""))
                 30)),
         log)
    end.
Proof.
  intros H. unfold Client.__init__, Client.new_AsyncClient, bind. cbv zeta.
  apply String.eqb_neq in H. rewrite H.
  destruct (invalid_url _); reflexivity.
Qed.

Lemma init_inversion (invalid_url : string -> option string)
    (environ : string -> option string)
    (base token : option string) (log log' : list request)
    (self : Client.APIClient) :
  Client.__init__ invalid_url environ base token log = (Return self, log') ->
  log' = log
  /\ Client.token self <> ""
  /\ Client.token self = str_or token (getenv environ "BOT_TOKEN" "")
  /\ Client.base_url self
     = str_or base (getenv environ "BACKEND_API_URL" Client.default_backend_api_url)
  /\ ac_base_url (Client.client self) = Client.base_url self
  /\ ac_authorization (Client.client self) = "Bearer " ++ Client.token self.
Proof.
  destruct (String.eqb (str_or token (getenv environ "BOT_TOKEN" "")) "") eqn:E.
  - unfold Client.__init__. cbv zeta. rewrite E. discriminate.
  - apply String.eqb_neq in E. rewrite (init_with_token _ _ _ _ _ E).
    destruct (invalid_url _); [discriminate|].
    intros H. injection H as <- <-.
    repeat split; try reflexivity. exact E.
Qed.

(** X7: a client that [__init__] returned has a non-empty token, and every
    request any of its methods sends carries [Bearer <token>] as its
    [Authorization] header; but for the health check, the request goes to
    the client's [base_url].  Construction itself sends nothing. *)
Theorem requests_carry_the_token (invalid_url : string -> option string)
    (environ : string -> option string)
    (base token : option string) (log0 log1 : list request)
    (self : Client.APIClient) (net : request -> outcome)
    (repr : value -> string) (op : operation) (log : list request) :
  Client.__init__ invalid_url environ base token log0 = (Return self, log1) ->
  log1 = log0
  /\ Client.token self <> ""
  /\ forall q,
       In q (snd (Client.call net repr self op log)) ->
       In q log
       \/ (rq_authorization q = "Bearer " ++ Client.token self
           /\ rq_url q = url op
           /\ (op <> GetHealth -> rq_base_url q = Client.base_url self)).
Proof.
  intros Hinit.
  destruct (init_inversion _ _ _ _ _ _ _ Hinit)
    as (Hlog & Htok & _ & _ & Hbase & Hauth).
  split; [exact Hlog|]. split; [exact Htok|].
  intros q Hq.
  assert (Hsent : snd (Client.call net repr self op log)
                  = if reaches_transport op
                    then (log ++ [request_of self op])%list
                    else log).
  { destruct (reaches_transport op) eqn:Hgate.
    - destruct (net (request_of self op)) as [r|e] eqn:Hnet.
      + rewrite (call_on_response net repr self op log r Hgate Hnet).
        apply normalized_keeps_log.
      + rewrite (call_on_failure net repr self op log e Hgate Hnet).
        apply transport_handlers_keep_log.
    - destruct (call_without_request net repr self op log Hgate) as [e He].
      rewrite He. reflexivity. }
  rewrite Hsent in Hq.
  destruct (reaches_transport op); [|left; exact Hq].
  apply in_app_or in Hq. destruct Hq as [Hq|[<-|[]]]; [left; exact Hq|].
  right. split; [exact Hauth|]. split; [reflexivity|].
  intros Hop. destruct op; try exact Hbase. now elim Hop.
Qed.

Lemma requests_carry_the_token_witness :
  Client.token test_client <> ""
  /\ rq_authorization
       (mk_request "http://test-backend:8080/api" "Bearer test-token-12345"
          "/projects/p1")
     = "Bearer " ++ Client.token test_client.
Proof.
  destruct (requests_carry_the_token accepts_every_url test_environ None None
              [] [] test_client
              (answers (mk_response 200 (Return VNone))) no_repr
              (GetProject "p1") [])
    as (_ & Htoken & Hsent).
  - reflexivity.
  - split; [exact Htoken|].
    destruct (Hsent (mk_request "http://test-backend:8080/api"
                       "Bearer test-token-12345" "/projects/p1"))
      as [[]|(Hauth & _)].
    + left. reflexivity.
    + exact Hauth.
Defined.



(** The construction of the test suite: the token argument and the
    address argument are the client's. *)
Example init_with_arguments :
  exists self,
    Client.__init__ accepts_every_url test_environ
      (Some "http://test-backend:8080/api") (Some "tok-123") []
    = (Return self, [])
    /\ Client.token self = "tok-123"
    /\ Client.base_url self = "http://test-backend:8080/api".
Proof. eexists. repeat split. Qed.



(** The same start-up with an address [httpx] accepts: the exit status is
    that of the server. *)
Example main_serves :
  Server.main (fun _ => ret tt) accepts_every_url test_environ [] = (Return 0, [])
  /\ Server.main (fun _ => raise (mk_exn TypeError "boom")) accepts_every_url
       test_environ []
     = (Return 1, []).
Proof. split; reflexivity. Qed.

(** ** What a tool returns when its method succeeds *)

Section Dispatch.

Variable net : request -> outcome.
Variable repr : value -> string.
Variable json_dumps : value -> string.

(** The [try] block of a tool, in terms of the method it calls. *)
Lemma try_block_of_call (c : Client.APIClient) (op : operation)
    (log : list request) :
  Server.try_block net repr json_dumps (Some c) op log
  = match Client.call net repr c op log with
    | (Return v, l) =>
        match listing_key op with
        | None => (Return (json_dumps v), l)
        | Some key =>
            match len v l with
            | (Return n, l') =>
                (Return (json_dumps (VDict [(key, v); ("count", VInt n)])), l')
            | (Raise e, l') => (Raise e, l')
            end
        end
    | (Raise e, l) => (Raise e, l)
    end.
Proof.
  destruct op; cbn [Server.try_block Client.call listing_key];
    unfold Server.list_projects_try, Server.get_project_try,
      Server.check_project_access_try, Server.list_sessions_try,
      Server.get_session_try, Server.get_session_k8s_resources_try,
      Server.list_session_workspace_try, Server.get_workspace_file_try,
      Server.list_ootb_workflows_try, Server.get_workflow_metadata_try,
      Server.get_cluster_info_try, Server.get_health_try,
      Server.method, Server.format_json, bind;
    match goal with
    | |- context [match ?call with _ => _ end] =>
        destruct call as [[v|e] l]
    end; try reflexivity;
    destruct (len v l) as [[n|e] l']; reflexivity.
Qed.

Lemma len_keeps_log (v : value) (log : list request) : snd (len v log) = log.
Proof. destruct v; reflexivity. Qed.

(** X10: a tool that is neither a listing nor [get_health], on a 2xx
    response with a JSON body, returns [json.dumps] of that body, whatever
    it holds, after the one request of its method. *)
Theorem getter_tool_returns_body (c : Client.APIClient) (op : operation)
    (log : list request) (r : response) (body : value) :
  Client.collection_field op = None ->
  reaches_transport op = true ->
  net (request_of c op) = Responds r ->
  200 <= status_code r < 300 ->
  json r = Return body ->
  Server.call_tool net repr json_dumps (Some c) op log
  = (Return (json_dumps body), (log ++ [request_of c op])%list).
Proof.
  intros Hfield Hgate Hnet Hst Hjson.
  rewrite call_tool_unfold, try_block_of_call.
  rewrite (call_on_response net repr c op log r Hgate Hnet).
  unfold try_except, bind, Client.finish.
  rewrite handle_success by exact Hst. rewrite Hjson, Hfield.
  cbn [ret].
  destruct op; try discriminate Hfield; reflexivity.
Qed.

(** X11: a listing tool, on a 2xx response whose body is an object,
    returns [json.dumps] of an object with the items under the tool's key
    ([projects], [sessions], [files], [workflows]) and their number under
    [count]; when the body lacks the collection field the items are the
    empty list and the count is 0. *)
Theorem listing_tool_counts_items (c : Client.APIClient) (op : operation)
    (key field : string) (log : list request) (r : response) (d : pydict) :
  listing_key op = Some key ->
  Client.collection_field op = Some field ->
  net (request_of c op) = Responds r ->
  200 <= status_code r < 300 ->
  json r = Return (VDict d) ->
  (forall items,
     dict_lookup d field = Some (VList items) ->
     Server.call_tool net repr json_dumps (Some c) op log
     = (Return (json_dumps
                  (VDict [(key, VList items);
                          ("count", VInt (Z.of_nat (List.length items)))])),
        (log ++ [request_of c op])%list))
  /\ (dict_lookup d field = None ->
      Server.call_tool net repr json_dumps (Some c) op log
      = (Return (json_dumps (VDict [(key, VList []); ("count", VInt 0)])),
         (log ++ [request_of c op])%list)).
Proof.
  intros Hkey Hfield Hnet Hst Hjson.
  assert (Hgate : reaches_transport op = true)
    by (destruct op; try discriminate Hfield; reflexivity).
  assert (Hcall : forall v,
            match dict_lookup d field with Some x => x | None => VList [] end = v ->
            Client.call net repr c op log
            = (Return v, (log ++ [request_of c op])%list)).
  { intros v <-.
    rewrite (call_on_response net repr c op log r Hgate Hnet).
    unfold try_except, bind, Client.finish.
    rewrite handle_success by exact Hst. rewrite Hjson, Hfield.
    cbn [value_get]. destruct (dict_lookup d field); reflexivity. }
  split.
  - intros items Hitems.
    rewrite call_tool_unfold, try_block_of_call.
    rewrite (Hcall (VList items)) by (rewrite Hitems; reflexivity).
    rewrite Hkey. reflexivity.
  - intros Hnone.
    rewrite call_tool_unfold, try_block_of_call.
    rewrite (Hcall (VList [])) by (rewrite Hnone; reflexivity).
    rewrite Hkey. reflexivity.
Qed.

(** X12: a tool adds no traffic of its own: the requests logged by a tool
    are those logged by the method it calls, and a tool called while
    [api_client] is still [None] sends nothing. *)
Theorem tool_sends_what_method_sends (c : Client.APIClient) (op : operation)
    (log : list request) :
  snd (Server.call_tool net repr json_dumps (Some c) op log)
  = snd (Client.call net repr c op log)
  /\ snd (Server.call_tool net repr json_dumps None op log) = log.
Proof.
  split.
  - rewrite call_tool_unfold, try_block_of_call.
    destruct (Client.call net repr c op log) as [[v|e] l]; [|reflexivity].
    destruct (listing_key op); [|reflexivity].
    pose proof (len_keeps_log v l) as Hlen.
    destruct (len v l) as [[n|e] l']; cbn [snd] in Hlen |- *; exact Hlen.
  - rewrite call_tool_unfold. destruct op; reflexivity.
Qed.

End Dispatch.

Lemma getter_tool_returns_body_witness :
  Server.call_tool
    (answers (mk_response 200 (Return (VDict [("platform", VStr "openshift")]))))
    no_repr no_dumps (Some test_client) GetClusterInfo []
  = (Return (no_dumps (VDict [("platform", VStr "openshift")])),
     [mk_request "http://test-backend:8080/api" "Bearer test-token-12345"
        "/cluster-info"]).
Proof.
  apply (getter_tool_returns_body
           (answers (mk_response 200 (Return (VDict [("platform", VStr "openshift")]))))
           no_repr no_dumps test_client GetClusterInfo []
           (mk_response 200 (Return (VDict [("platform", VStr "openshift")])))
           (VDict [("platform", VStr "openshift")])).
  - reflexivity.
  - reflexivity.
  - reflexivity.
  - simpl. lia.
  - reflexivity.
Defined.

Lemma listing_tool_counts_items_witness :
  Server.call_tool
    (answers (mk_response 200
                (Return (VDict [("items", VList [VStr "s1"; VStr "s2"])]))))
    no_repr
    (fun v => match v with
              | VDict [(_, _); (_, VInt n)] => PyStr.of_int n
              | _ => "?"
              end)
    (Some test_client) (ListSessions "test-project") []
  = (Return "2",
     [mk_request "http://test-backend:8080/api" "Bearer test-token-12345"
        "/projects/test-project/agentic-sessions"]).
Proof.
  destruct (listing_tool_counts_items
              (answers (mk_response 200
                          (Return (VDict [("items", VList [VStr "s1"; VStr "s2"])]))))
              no_repr
              (fun v => match v with
                        | VDict [(_, _); (_, VInt n)] => PyStr.of_int n
                        | _ => "?"
                        end)
              test_client (ListSessions "test-project") "sessions" "items" []
              (mk_response 200
                 (Return (VDict [("items", VList [VStr "s1"; VStr "s2"])])))
              [("items", VList [VStr "s1"; VStr "s2"])]) as [H _].
  - reflexivity.
  - reflexivity.
  - reflexivity.
  - simpl. lia.
  - reflexivity.
  - apply (H [VStr "s1"; VStr "s2"]). reflexivity.
Defined.

(** ** The path gate and path segments *)

Lemma string_app_assoc (a b c : string) : (a ++ b) ++ c = a ++ (b ++ c).
Proof.
  induction a as [|x a IH]; cbn [append]; [reflexivity|].
  rewrite IH. reflexivity.
Qed.

Lemma contains_skip (sub : string) (c : ascii) (s : string) :
  PyStr.contains sub s = true -> PyStr.contains sub (String c s) = true.
Proof.
  intros H. cbn [PyStr.contains]. rewrite H. apply orb_true_r.
Qed.

Lemma contains_app_r (sub before s : string) :
  PyStr.contains sub s = true -> PyStr.contains sub (before ++ s) = true.
Proof.
  intros H. induction before as [|c before IH]; cbn [append].
  - exact H.
  - apply contains_skip, IH.
Qed.

Lemma prefix_inv (sub s : string) :
  String.prefix sub s = true -> exists after, s = sub ++ after.
Proof.
  revert sub. induction s as [|c s IH]; intros sub H.
  - destruct sub; [exists ""; reflexivity | discriminate H].
  - destruct sub as [|x sub]; [exists (String c s); reflexivity|].
    cbn [String.prefix] in H.
    destruct (ascii_dec x c) as [->|]; [|discriminate H].
    destruct (IH sub H) as [after ->]. exists after. reflexivity.
Qed.

Lemma contains_inv (sub s : string) :
  PyStr.contains sub s = true -> exists before after, s = before ++ sub ++ after.
Proof.
  induction s as [|c s IH]; cbn [PyStr.contains]; intros H.
  - rewrite orb_false_r in H. destruct (prefix_inv _ _ H) as [after ->].
    exists "", after. reflexivity.
  - apply orb_true_iff in H. destruct H as [H|H].
    + destruct (prefix_inv _ _ H) as [after ->]. exists "", after. reflexivity.
    + destruct (IH H) as [before [after ->]].
      exists (String c before), after. reflexivity.
Qed.

(** A [..] among the segments that [split] cuts out lies in the string. *)
Lemma segment_is_substring (cur s : string) :
  existsb (String.eqb "..") (PyStr.split_from "/" cur s) = true ->
  PyStr.contains ".." (cur ++ s) = true.
Proof.
  revert cur. induction s as [|c s IH]; intros cur H.
  - cbn [PyStr.split_from existsb] in H. rewrite orb_false_r in H.
    apply String.eqb_eq in H. subst cur. reflexivity.
  - cbn [PyStr.split_from] in H. destruct (Ascii.eqb c "/") eqn:E.
    + cbn [existsb] in H. apply orb_true_iff in H. destruct H as [H|H].
      * apply String.eqb_eq in H. subst cur.
        apply contains_prefix, prefix_app.
      * apply contains_app_r, contains_skip.
        exact (IH "" H).
    + specialize (IH _ H). rewrite string_app_assoc in IH. exact IH.
Qed.

(** X13: the substring test covers the segment-wise one: a path any of
    whose [/]-separated segments is [..] is rejected by
    [get_workspace_file] before a request is sent, wherever the segment
    stands. *)
Theorem parent_segment_is_rejected (net : request -> outcome)
    (repr : value -> string) (self : Client.APIClient)
    (project_name session_name path : string) (log : list request) :
  has_parent_segment path = true ->
  Client.get_workspace_file net repr self project_name session_name path log
  = (Raise (as_exception ValidationError), log).
Proof.
  intros H. apply gate_rejects.
  exact (segment_is_substring "" path H).
Qed.

Lemma parent_segment_is_rejected_witness :
  Client.get_workspace_file (answers (mk_response 200 (Return VNone))) no_repr
    test_client "test-project" "test-session" "src/../../secrets/token" []
  = (Raise (mk_exn ValueError "Path cannot contain '..' components"), []).
Proof.
  apply (parent_segment_is_rejected (answers (mk_response 200 (Return VNone)))
           no_repr test_client "test-project" "test-session"
           "src/../../secrets/token" []).
  reflexivity.
Defined.

(** X14: the gate rejects nothing else: a path in which [..] does not
    occur is forwarded as it is, as the tail of the workspace URL, in the
    one request the method sends. *)
Theorem path_without_dotdot_is_forwarded (net : request -> outcome)
    (repr : value -> string) (self : Client.APIClient)
    (project_name session_name path : string) (log : list request) :
  (forall before after, path <> before ++ ".." ++ after) ->
  snd (Client.get_workspace_file net repr self project_name session_name path log)
  = (log ++ [mk_request (ac_base_url (Client.client self))
               (ac_authorization (Client.client self))
               ("/projects/" ++ project_name ++ "/agentic-sessions/"
                  ++ session_name ++ "/workspace/" ++ path)])%list.
Proof.
  intros Hfree.
  assert (Hgate : reaches_transport (GetWorkspaceFile project_name session_name path)
                  = true).
  { cbn [reaches_transport]. apply negb_true_iff.
    destruct (PyStr.contains ".." path) eqn:E; [|reflexivity].
    destruct (contains_inv _ _ E) as [before [after Hocc]].
    now elim (Hfree before after). }
  change (Client.get_workspace_file net repr self project_name session_name path)
    with (Client.call net repr self
            (GetWorkspaceFile project_name session_name path)).
  destruct (net (request_of self (GetWorkspaceFile project_name session_name path)))
    as [r|e] eqn:Hnet.
  - rewrite (call_on_response net repr self _ log r Hgate Hnet).
    apply normalized_keeps_log.
  - rewrite (call_on_failure net repr self _ log e Hgate Hnet).
    apply transport_handlers_keep_log.
Qed.

Lemma path_without_dotdot_is_forwarded_witness :
  snd (Client.get_workspace_file (answers (mk_response 404 (Return VNone))) no_repr
         test_client "test-project" "test-session" "docs/a.b/README.md" [])
  = [mk_request "http://test-backend:8080/api" "Bearer test-token-12345"
       "/projects/test-project/agentic-sessions/test-session/workspace/docs/a.b/README.md"].
Proof.
  apply (path_without_dotdot_is_forwarded
           (answers (mk_response 404 (Return VNone))) no_repr
           test_client "test-project" "test-session" "docs/a.b/README.md" []).
  intros before after H.
  pose proof (contains_occurrence ".." before after) as C.
  rewrite <- H in C. vm_compute in C. discriminate C.
Defined.

(** ** Failures of the backend, as the caller of a tool sees them *)

Section Failures.

Variable net : request -> outcome.
Variable repr : value -> string.
Variable json_dumps : value -> string.

(** A plain [Exception] raised by the method comes back under the tool's
    own label, for [get_workspace_file] too. *)
Lemma plain_exception_text (c : Client.APIClient) (op : operation)
    (log log' : list request) (msg : string) :
  Client.call net repr c op log = (Raise (mk_exn Exception msg), log') ->
  Server.call_tool net repr json_dumps (Some c) op log
  = (Return (Server.error_label op ++ msg), log').
Proof.
  intros H. rewrite call_tool_unfold, try_block_of_call, H.
  destruct op; reflexivity.
Qed.

(** X17: for every tool but [get_health] (which receives no response): a
    response with a status outside [200,300) reaches the caller of the
    tool as the tool's [Error ...: ] label followed by the message
    [_handle_response] raises for that response -- also for
    [get_workspace_file], whose [Invalid path: ] label is not used for
    it. *)
Theorem error_status_reaches_caller (c : Client.APIClient) (op : operation)
    (log : list request) (r : response) :
  reaches_transport op = true ->
  net (request_of c op) = Responds r ->
  ~ 200 <= status_code r < 300 ->
  exists msg,
    Client._handle_response repr r (Client.resource_type op)
      (log ++ [request_of c op])%list
    = (Raise (mk_exn Exception msg), (log ++ [request_of c op])%list)
    /\ Server.call_tool net repr json_dumps (Some c) op log
       = (Return (Server.error_label op ++ msg), (log ++ [request_of c op])%list).
Proof.
  intros Hgate Hnet Hst.
  destruct (handle_failure repr r (Client.resource_type op)
              (log ++ [request_of c op])%list Hst) as [msg Hmsg].
  exists msg. split; [exact Hmsg|].
  apply plain_exception_text.
  rewrite (call_on_response net repr c op log r Hgate Hnet).
  unfold try_except, bind. rewrite Hmsg. reflexivity.
Qed.

(** X18: for every tool but [get_health] (which does not reach the
    transport): a connection failure and a time-out reach the caller of
    the tool as the tool's label followed by [Cannot reach backend API. ...]
    and by [Request timed out after 30s. ...]. *)
Theorem transport_failure_reaches_caller (c : Client.APIClient) (op : operation)
    (log : list request) (e : exn) :
  reaches_transport op = true ->
  net (request_of c op) = Fails e ->
  (isinstance e ConnectError = true ->
   Server.call_tool net repr json_dumps (Some c) op log
   = (Return (Server.error_label op
                ++ "Cannot reach backend API. Check cluster connectivity."),
      (log ++ [request_of c op])%list))
  /\ (isinstance e TimeoutException = true ->
      Server.call_tool net repr json_dumps (Some c) op log
      = (Return (Server.error_label op
                   ++ "Request timed out after 30s. Backend may be overloaded."),
         (log ++ [request_of c op])%list)).
Proof.
  intros Hgate Hnet. split; intros Hclass; apply plain_exception_text;
    rewrite (call_on_failure net repr c op log e Hgate Hnet);
    cbn [find_handler Client.transport_handlers].
  - rewrite Hclass. reflexivity.
  - rewrite (timeout_is_not_connect_error e Hclass), Hclass. reflexivity.
Qed.

End Failures.

Lemma error_status_reaches_caller_witness :
  exists msg,
    Client._handle_response no_repr (mk_response 403 (Return VNone)) "file"
      [request_of test_client (GetWorkspaceFile "p" "s" "README.md")]
    = (Raise (mk_exn Exception msg),
       [request_of test_client (GetWorkspaceFile "p" "s" "README.md")])
    /\ Server.call_tool (answers (mk_response 403 (Return VNone))) no_repr no_dumps
         (Some test_client) (GetWorkspaceFile "p" "s" "README.md") []
       = (Return ("Error getting workspace file: " ++ msg),
          [request_of test_client (GetWorkspaceFile "p" "s" "README.md")]).
Proof.
  apply (error_status_reaches_caller
           (answers (mk_response 403 (Return VNone))) no_repr no_dumps
           test_client (GetWorkspaceFile "p" "s" "README.md") []
           (mk_response 403 (Return VNone))).
  - reflexivity.
  - reflexivity.
  - simpl. lia.
Defined.

Lemma transport_failure_reaches_caller_witness :
  Server.call_tool (fails (mk_exn ConnectError "Connection refused")) no_repr
    no_dumps (Some test_client) ListProjects []
  = (Return "Error listing projects: Cannot reach backend API. Check cluster connectivity.",
     [mk_request "http://test-backend:8080/api" "Bearer test-token-12345"
        "/projects"]).
Proof.
  apply (proj1 (transport_failure_reaches_caller
                  (fails (mk_exn ConnectError "Connection refused")) no_repr
                  no_dumps test_client ListProjects []
                  (mk_exn ConnectError "Connection refused") eq_refl eq_refl)).
  reflexivity.
Defined.
